(** * Saver: the saved-content hub (src/app.py)

    A shallow embedding of the Flask application: the session dictionary,
    the two content fetchers, the sync gate and the route handlers, together
    with the properties the specification states about them.

    The handlers mutate one shared object, the Flask [session]; they are
    modelled in a state-and-exception monad over that dictionary.  The
    provider SDKs (googleapiclient, google_auth_oauthlib, praw), the clock
    and Python's [str] are outside the program: they are the fields of an
    environment record [Env], and every theorem holds for every
    environment unless a hypothesis on it is written out. *)

From Stdlib Require Import ZArith List Lia.
From stdpp Require Import base gmap strings list.

Set Warnings "-register-all".
Local Open Scope Z_scope.

(** ** Python values *)

(** The values the program handles: [None], booleans, numbers, strings,
    lists, dictionaries (JSON objects; association lists in insertion order)
    and SDK objects with named attributes.  Numbers are integers: a clock
    reading is a whole number of ticks, and the rounding of binary floating
    point is not modelled. *)
Inductive value : Type :=
| VNone
| VBool (b : bool)
| VNum (z : Z)
| VStr (s : string)
| VList (l : list value)
| VDict (d : list (string * value))
| VObj (cls : string) (attrs : list (string * value)).

(** The exceptions the program can meet; all are subclasses of [Exception].
    [HttpError] is [googleapiclient.errors.HttpError]; [OtherError] is any
    other exception class an SDK raises (transport failures, OAuth
    failures, ...). *)
Inductive exn : Type :=
| KeyError (key : string)
| TypeError (what : string)
| AttributeError (name : string)
| HttpError (status : Z) (reason : string)
| OtherError (cls : string) (msg : string).

Inductive result (A : Type) : Type :=
| Ok (a : A)
| Raise (e : exn).
Arguments Ok {A} a.
Arguments Raise {A} e.

(** [isinstance(e, googleapiclient.errors.HttpError)] *)
Definition is_HttpError (e : exn) : bool :=
  match e with
  | HttpError _ _ => true
  | _ => false
  end.

(** [isinstance(e, Exception)]: every exception of the model is one
    (interrupts and interpreter exits are not modelled). *)
Definition is_Exception (e : exn) : bool := true.

Fixpoint assoc (k : string) (d : list (string * value)) : option value :=
  match d with
  | [] => None
  | (k', v) :: d' => if decide (k = k') then Some v else assoc k d'
  end.

(** Truth value of [v] in a condition ([if v:], [not v]); the SDK objects
    define neither [__bool__] nor [__len__], so they are true. *)
Definition truthy (v : value) : bool :=
  match v with
  | VNone => false
  | VBool b => b
  | VNum z => negb (z =? 0)
  | VStr s => negb (bool_decide (s = ""))
  | VList l => match l with [] => false | _ => true end
  | VDict d => match d with [] => false | _ => true end
  | VObj _ _ => true
  end.

(** [v[k]] for a string key [k]. *)
Definition subscript (v : value) (k : string) : result value :=
  match v with
  | VDict d =>
      match assoc k d with
      | Some x => Ok x
      | None => Raise (KeyError k)
      end
  | VObj _ _ | VNone | VBool _ | VNum _ => Raise (TypeError "not subscriptable")
  | VStr _ => Raise (TypeError "string indices must be integers")
  | VList _ => Raise (TypeError "list indices must be integers or slices")
  end.

(** [v.get(k, default)]; only a dictionary has the method. *)
Definition dict_get (v : value) (k : string) (default : value) : result value :=
  match v with
  | VDict d =>
      match assoc k d with
      | Some x => Ok x
      | None => Ok default
      end
  | _ => Raise (AttributeError "get")
  end.

(** The elements [for item in v] runs over. *)
Definition iterate (v : value) : result (list value) :=
  match v with
  | VList l => Ok l
  | VDict d => Ok (map (fun kv => VStr (fst kv)) d)
  | VStr s => Ok (map (fun c => VStr (String c EmptyString)) (String.list_ascii_of_string s))
  | VNone | VBool _ | VNum _ | VObj _ _ => Raise (TypeError "object is not iterable")
  end.

(** [hasattr(v, name)] and [v.name].  SDK objects carry their attributes;
    of the attribute names the program reads ([user], [title], [permalink],
    [subreddit], [display_name]) the built-in types have only one: [str]
    has a method [title]. *)
Definition builtin_attr (v : value) (name : string) : option value :=
  match v with
  | VStr _ =>
      if decide (name = "title")
      then Some (VObj "builtin_function_or_method" [])
      else None
  | _ => None
  end.

Definition lookup_attr (v : value) (name : string) : option value :=
  match v with
  | VObj _ attrs => assoc name attrs
  | _ => builtin_attr v name
  end.

Definition py_hasattr (v : value) (name : string) : bool :=
  bool_decide (is_Some (lookup_attr v name)).

Definition py_getattr (v : value) (name : string) : result value :=
  match lookup_attr v name with
  | Some x => Ok x
  | None => Raise (AttributeError name)
  end.

(** [v.name = x] on an SDK object. *)
Fixpoint assoc_set (k : string) (x : value) (d : list (string * value))
  : list (string * value) :=
  match d with
  | [] => [(k, x)]
  | (k', v) :: d' =>
      if decide (k = k') then (k, x) :: d' else (k', v) :: assoc_set k x d'
  end.

Definition py_setattr (v : value) (name : string) (x : value) : result value :=
  match v with
  | VObj cls attrs => Ok (VObj cls (assoc_set name x attrs))
  | _ => Raise (AttributeError name)
  end.

(** [v.__dict__] of an SDK object. *)
Definition py_dict (v : value) : result value :=
  match v with
  | VObj _ attrs => Ok (VDict attrs)
  | _ => Raise (AttributeError "__dict__")
  end.

(** A number as an operand of [-] and [>=]; [bool] is a subclass of [int]. *)
Definition as_number (v : value) : option Z :=
  match v with
  | VNum z => Some z
  | VBool b => Some (if b then 1 else 0)
  | _ => None
  end.

(** [a - b] and [a >= b] on values. *)
Definition py_sub (a b : value) : result value :=
  match as_number a, as_number b with
  | Some x, Some y => Ok (VNum (x - y))
  | _, _ => Raise (TypeError "unsupported operand type(s) for -")
  end.

Definition py_ge (a b : value) : result bool :=
  match as_number a, as_number b with
  | Some x, Some y => Ok (y <=? x)
  | _, _ => Raise (TypeError ">= not supported")
  end.

(** [a != s] for a string [s]: only an equal string is equal to it. *)
Definition py_ne_str (a : value) (s : string) : bool :=
  match a with
  | VStr s' => negb (bool_decide (s' = s))
  | _ => true
  end.

(** [a is None] *)
Definition is_None (a : value) : bool :=
  match a with
  | VNone => true
  | _ => false
  end.

(** ** The pure error monad of expressions *)

#[global] Instance result_ret : MRet result := @Ok.
#[global] Instance result_bind : MBind result :=
  fun A B (k : A -> result B) (r : result A) =>
    match r with
    | Ok a => k a
    | Raise e => Raise e
    end.

(** ** The environment of one request *)

(** What iterating [reddit.user.me().saved(limit=...)] produces: the items
    the generator yields and, if the iteration ends in an error, that error. *)
Record listing : Type := Listing {
  yielded : list value;
  failure : option exn
}.

(** Everything the handlers obtain from outside the program.  One [Env]
    describes the outside world during one request. *)
Record Env : Type := {
  (** [time.time()] and [time.ctime(t)] *)
  time_time : Z;
  time_ctime : Z -> string;
  (** [str(v)], as interpolated by an f-string, and [str(e)] *)
  str_value : value -> string;
  str_exn : exn -> string;
  (** [tempfile.NamedTemporaryFile(mode="w", suffix=".json", delete=False)]:
      the name of the file it creates *)
  NamedTemporaryFile : result string;
  (** [temp_file.write(YOUTUBE_CLIENT_SECRET_JSON)] on the file of that name,
      and its closing at the end of the [with] block; the write raises
      [TypeError] when the environment variable is not set *)
  temp_file_write : string -> result unit;
  os_unlink : string -> result unit;
  (** [InstalledAppFlow.from_client_secrets_file(file, scopes)] *)
  from_client_secrets_file : string -> list string -> result value;
  (** [flow.authorization_url(access_type="offline",
      include_granted_scopes="true")]: the URL, the state token and the flow
      object after the call *)
  authorization_url : value -> result (string * string * value);
  (** [flow.fetch_token(code=...)] followed by [flow.credentials] *)
  fetch_token : value -> string -> result value;
  (** [credentials.to_json()] *)
  to_json : value -> result string;
  (** [googleapiclient.discovery.build(name, version, credentials=...)] *)
  discovery_build : string -> string -> value -> result value;
  (** [youtube_api.videos().list(part=..., myRating=..., maxResults=...)
      .execute()] *)
  videos_list_execute : value -> string -> string -> Z -> result value;
  (** [praw.Reddit(client_id=..., client_secret=..., redirect_uri=...,
      user_agent=...)], the identifiers coming from the process environment *)
  praw_Reddit : string -> result value;
  (** [reddit.auth.url(scopes=..., state=..., duration=...)] *)
  auth_url : value -> list string -> string -> string -> result string;
  (** [reddit.auth.authorize(code)]: the client object after the exchange *)
  auth_authorize : value -> string -> result value;
  (** [reddit.user.me().saved(limit=...)] on a praw client object *)
  user_me_saved : value -> Z -> result listing
}.

(** ** Session, effects and the handler monad *)

(** The calls that leave the process, and the entries into the fetchers. *)
Inductive event : Type :=
| CallFetchYoutube (youtube_api : value)
| CallFetchReddit (reddit : value)
| ReqVideosList (youtube_api : value) (maxResults : Z)
| ReqSaved (reddit : value) (limit : Z)
| ReqFetchToken (code : string)
| ReqAuthorize (code : string)
| TempFileCreated (path : string)
| TempFileWritten
| Unlinked (path : string).

(** The Flask [session] (a dictionary from keys to values) and the calls
    made so far. *)
Record state : Type := State {
  session : gmap string value;
  trace : list event
}.

Definition M (A : Type) : Type := state -> result A * state.

#[global] Instance M_ret : MRet M := fun A (a : A) st => (Ok a, st).
#[global] Instance M_bind : MBind M :=
  fun A B (k : A -> M B) (m : M A) st =>
    match m st with
    | (Ok a, st') => k a st'
    | (Raise e, st') => (Raise e, st')
    end.

(** An expression that may raise, evaluated in a handler. *)
Definition lift {A} (r : result A) : M A := fun st => (r, st).

Definition emit (ev : event) : M unit :=
  fun st => (Ok tt, State (session st) (trace st ++ [ev])).

(** [session[k]], [session.get(k)], [k in session], [session[k] = v] *)
Definition session_getitem (k : string) : M value :=
  fun st =>
    match session st !! k with
    | Some v => (Ok v, st)
    | None => (Raise (KeyError k), st)
    end.

Definition session_get (k : string) : M value :=
  fun st => (Ok (default VNone (session st !! k)), st).

Definition session_contains (k : string) : M bool :=
  fun st => (Ok (bool_decide (is_Some (session st !! k))), st).

Definition session_setitem (k : string) (v : value) : M unit :=
  fun st => (Ok tt, State (<[k := v]> (session st)) (trace st)).

(** [try: body except C as e: handler], where [catches e] tells whether [e]
    is an instance of [C].  Nothing the body did is undone. *)
Definition try_except {A} (body : M A) (catches : exn -> bool)
    (handler : exn -> M A) : M A :=
  fun st =>
    match body st with
    | (Ok a, st') => (Ok a, st')
    | (Raise e, st') => if catches e then handler e st' else (Raise e, st')
    end.

(** [try: body finally: cleanup] *)
Definition try_finally {A} (body : M A) (cleanup : M unit) : M A :=
  fun st =>
    match body st with
    | (r, st') =>
        match cleanup st' with
        | (Ok _, st'') => (r, st'')
        | (Raise e, st'') => (Raise e, st'')
        end
    end.

(** What a view function returns. *)
Inductive response : Type :=
| Redirect (location : string)
| Body (text : string) (status : Z)
| Template (name : string) (context : list (string * value)).

(** [url_for(endpoint)]: the rule of the view function of that name, from
    the [@app.route] decorators; an unknown endpoint is a [BuildError]. *)
Definition routes : list (string * string) :=
  [("index", "/");
   ("login", "/login");
   ("youtube_login", "/youtube-login");
   ("reddit_login", "/reddit-login");
   ("youtube_callback", "/youtube-callback");
   ("reddit_callback", "/reddit-callback");
   ("logout_youtube", "/logout-youtube");
   ("logout_reddit", "/logout-reddit");
   ("sync", "/sync")].

Definition url_for (endpoint : string) : result string :=
  match List.find (fun rule => bool_decide (fst rule = endpoint)) routes with
  | Some rule => Ok (snd rule)
  | None =>
      Raise (OtherError "werkzeug.routing.exceptions.BuildError" endpoint)
  end.

Definition YOUTUBE_SCOPES : list string :=
  ["https://www.googleapis.com/auth/youtube.readonly"].
Definition YOUTUBE_API_SERVICE_NAME : string := "youtube".
Definition YOUTUBE_API_VERSION : string := "v3".
Definition REDDIT_REDIRECT_URI : string :=
  "https://saved-hub.vercel.app/reddit-callback".
Definition YOUTUBE_REDIRECT_URI : string :=
  "https://saved-hub.vercel.app/youtube-callback".

(** ** The program *)

Section App.

Context (w : Env).

(** [if k not in session: session[k] = v] *)
Definition init_key (k : string) (v : value) : M unit :=
  present ← session_contains k;
  if present : bool then mret tt else session_setitem k v.

Definition init_session : M unit :=
  init_key "youtube_credentials" VNone;;
  init_key "reddit_access_token" VNone;;
  init_key "youtube_api" VNone;;
  init_key "reddit" VNone;;
  init_key "youtube_videos" (VList []);;
  init_key "reddit_posts" (VList []);;
  init_key "last_sync_time" (VNum 0);;
  init_key "sync_interval" (VNum 60);;
  init_key "oauth_state" VNone;;
  init_key "oauth_flow" VNone.

(** The file is created first and stays on disk ([delete=False]) whatever
    happens to the write. *)
Definition create_temp_client_secret_file : M string :=
  name ← lift (NamedTemporaryFile w);
  emit (TempFileCreated name);;
  lift (temp_file_write w name);;
  emit TempFileWritten;;
  mret name.

Definition unlink (path : string) : M unit :=
  lift (os_unlink w path);;
  emit (Unlinked path).

Definition get_youtube_api (credentials : value) : M value :=
  lift (discovery_build w YOUTUBE_API_SERVICE_NAME YOUTUBE_API_VERSION
          credentials).

(** The dictionary appended for one item of the video response; the three
    values are evaluated in the order they are written. *)
Definition video_record (item : value) : result value :=
  snippet ← subscript item "snippet";
  title ← subscript snippet "title";
  id ← subscript item "id";
  snippet' ← subscript item "snippet";
  thumbnails ← subscript snippet' "thumbnails";
  dflt ← subscript thumbnails "default";
  url ← subscript dflt "url";
  mret (VDict [("title", title);
               ("url", VStr ("https://www.youtube.com/watch?v=" +:+ str_value w id));
               ("thumbnail", url)]).

(** [for item in items: videos.append({...})] *)
Fixpoint videos_loop (items : list value) (videos : list value)
  : result (list value) :=
  match items with
  | [] => Ok videos
  | item :: rest =>
      r ← video_record item;
      videos_loop rest (videos ++ [r])
  end.

(** [youtube_api.videos().list(part="snippet", myRating="like",
    maxResults=10)] and [request.execute()]; a value that is not an SDK
    object has no attribute [videos]. *)
Definition videos_list (youtube_api : value) (maxResults : Z) : M value :=
  match youtube_api with
  | VObj _ _ =>
      emit (ReqVideosList youtube_api maxResults);;
      lift (videos_list_execute w youtube_api "snippet" "like" maxResults)
  | _ => lift (Raise (AttributeError "videos"))
  end.

Definition fetch_youtube_saved_videos (youtube_api : value) : M value :=
  emit (CallFetchYoutube youtube_api);;
  try_except
    (response ← videos_list youtube_api 10;
     items ← lift (dict_get response "items" (VList []));
     items ← lift (iterate items);
     videos ← lift (videos_loop items []);
     mret (VList videos))
    is_HttpError
    (fun e => mret (VList [])).

(** The dictionary appended for one saved submission. *)
Definition post_record (item : value) : result value :=
  title ← py_getattr item "title";
  permalink ← py_getattr item "permalink";
  subreddit ← py_getattr item "subreddit";
  display_name ← py_getattr subreddit "display_name";
  mret (VDict [("title", title);
               ("url", VStr ("https://reddit.com" +:+ str_value w permalink));
               ("subreddit", display_name)]).

(** [for item in ...: if hasattr(item, "title"): saved_posts.append({...})] *)
Fixpoint saved_loop (items : list value) (saved_posts : list value)
  : result (list value) :=
  match items with
  | [] => Ok saved_posts
  | item :: rest =>
      if py_hasattr item "title"
      then r ← post_record item; saved_loop rest (saved_posts ++ [r])
      else saved_loop rest saved_posts
  end.

(** [reddit.user.me().saved(limit=10)]; a value that is not an SDK object
    (the dictionary [reddit_callback] stores, for one) has no attribute
    [user]. *)
Definition saved (reddit : value) (limit : Z) : M listing :=
  match reddit with
  | VObj _ _ =>
      emit (ReqSaved reddit limit);;
      lift (user_me_saved w reddit limit)
  | _ => lift (Raise (AttributeError "user"))
  end.

Definition fetch_reddit_saved_posts (reddit : value) : M value :=
  emit (CallFetchReddit reddit);;
  try_except
    (items ← saved reddit 10;
     saved_posts ← lift (saved_loop (yielded items) []);
     match failure items with
     | Some e => lift (Raise e)
     | None => mret (VList saved_posts)
     end)
    is_Exception
    (fun e => mret (VList [])).

Definition sync_content : M unit :=
  let current_time := VNum (time_time w) in
  last ← session_getitem "last_sync_time";
  elapsed ← lift (py_sub current_time last);
  interval ← session_getitem "sync_interval";
  stale ← lift (py_ge elapsed interval);
  if stale : bool then
    youtube_api ← session_get "youtube_api";
    (if truthy youtube_api then
       youtube_api ← session_getitem "youtube_api";
       videos ← fetch_youtube_saved_videos youtube_api;
       session_setitem "youtube_videos" videos
     else mret tt);;
    reddit ← session_get "reddit";
    (if truthy reddit then
       reddit ← session_getitem "reddit";
       posts ← fetch_reddit_saved_posts reddit;
       session_setitem "reddit_posts" posts
     else mret tt);;
    session_setitem "last_sync_time" current_time
  else mret tt.

(** [time.ctime(t)]; [time.ctime(None)] formats the current time. *)
Definition ctime (t : value) : result string :=
  match t with
  | VNone => Ok (time_ctime w (time_time w))
  | _ =>
      match as_number t with
      | Some z => Ok (time_ctime w z)
      | None => Raise (TypeError "an integer is required")
      end
  end.

(** *** Routes *)

(** [@app.route("/")] *)
Definition index : M response :=
  init_session;;
  sync_content;;
  youtube_credentials ← session_get "youtube_credentials";
  unauthenticated ←
    (if negb (truthy youtube_credentials)
     then reddit ← session_get "reddit"; mret (negb (truthy reddit))
     else mret false);
  if unauthenticated : bool then
    location ← lift (url_for "login");
    mret (Redirect location)
  else
    youtube_videos ← session_getitem "youtube_videos";
    reddit_posts ← session_getitem "reddit_posts";
    last_sync_time ← session_getitem "last_sync_time";
    shown ← lift (ctime last_sync_time);
    mret (Template "content.html"
            [("youtube_videos", youtube_videos);
             ("reddit_posts", reddit_posts);
             ("last_sync_time", VStr shown)]).

(** [@app.route("/login")] *)
Definition login : M response :=
  init_session;;
  mret (Template "login.html" []).

(** [@app.route("/youtube-login")] *)
Definition youtube_login : M response :=
  client_secret_file ← create_temp_client_secret_file;
  try_finally
    (flow ← lift (from_client_secrets_file w client_secret_file YOUTUBE_SCOPES);
     flow ← lift (py_setattr flow "redirect_uri" (VStr YOUTUBE_REDIRECT_URI));
     '(authorization_url, state, flow) ← lift (authorization_url w flow);
     session_setitem "oauth_state" (VStr state);;
     flow_dict ← lift (py_dict flow);
     session_setitem "oauth_flow" flow_dict;;
     mret (Redirect authorization_url))
    (unlink client_secret_file).

(** [@app.route("/reddit-login")] *)
Definition reddit_login : M response :=
  reddit ← lift (praw_Reddit w REDDIT_REDIRECT_URI);
  auth_url ← lift (auth_url w reddit ["identity"; "read"; "save"]
                     "uniqueKey" "temporary");
  mret (Redirect auth_url).

(** [@app.route("/youtube-callback")]; [args] is [request.args]. *)
Definition youtube_callback (args : gmap string string) : M response :=
  match args !! "code", args !! "state" with
  | Some code, Some state_arg =>
      oauth_state ← session_get "oauth_state";
      mismatch ←
        (if is_None oauth_state then mret true
         else oauth_state ← session_get "oauth_state";
              mret (py_ne_str oauth_state state_arg));
      if mismatch : bool then mret (Body "Error: OAuth state mismatch" 400)
      else
        client_secret_file ← create_temp_client_secret_file;
        try_finally
          (flow ← lift (from_client_secrets_file w client_secret_file
                          YOUTUBE_SCOPES);
           flow ← lift (py_setattr flow "redirect_uri"
                          (VStr YOUTUBE_REDIRECT_URI));
           emit (ReqFetchToken code);;
           credentials ← lift (fetch_token w flow code);
           json ← lift (to_json w credentials);
           session_setitem "youtube_credentials" (VStr json);;
           youtube_api ← get_youtube_api credentials;
           session_setitem "youtube_api" youtube_api;;
           sync_content;;
           location ← lift (url_for "index");
           mret (Redirect location))
          (unlink client_secret_file)
  | _, _ => mret (Body "Error: Missing code or state parameter" 400)
  end.

(** [@app.route("/reddit-callback")] *)
Definition reddit_callback (args : gmap string string) : M response :=
  match args !! "code" with
  | None => mret (Body "Error: Missing code parameter" 400)
  | Some code =>
      try_except
        (reddit ← lift (praw_Reddit w REDDIT_REDIRECT_URI);
         emit (ReqAuthorize code);;
         reddit ← lift (auth_authorize w reddit code);
         reddit_dict ← lift (py_dict reddit);
         session_setitem "reddit" reddit_dict;;
         sync_content;;
         location ← lift (url_for "index");
         mret (Redirect location))
        is_Exception
        (fun e => mret (Body ("Reddit login failed: " +:+ str_exn w e) 400))
  end.

(** [@app.route("/logout-youtube")] *)
Definition logout_youtube : M response :=
  session_setitem "youtube_credentials" VNone;;
  session_setitem "youtube_api" VNone;;
  session_setitem "youtube_videos" (VList []);;
  location ← lift (url_for "index");
  mret (Redirect location).

(** [@app.route("/logout-reddit")] *)
Definition logout_reddit : M response :=
  session_setitem "reddit" VNone;;
  session_setitem "reddit_posts" (VList []);;
  location ← lift (url_for "index");
  mret (Redirect location).

(** [@app.route("/sync")] *)
Definition sync : M response :=
  session_setitem "last_sync_time" (VNum 0);;
  sync_content;;
  location ← lift (url_for "index");
  mret (Redirect location).

End App.

(** ** Vocabulary of the properties *)

(** A handler's three observable parts. *)
Definition outcome {A} (run : result A * state) : result A := fst run.
Definition session_after {A} (run : result A * state) : gmap string value :=
  session (snd run).
Definition trace_after {A} (run : result A * state) : list event :=
  trace (snd run).

(** The client handle stored under [key], if it is an active one: what
    [if session.get(key):] lets through. *)
Definition active_handle (s : gmap string value) (key : string)
  : list value :=
  match s !! key with
  | Some h => if truthy h then [h] else []
  | None => []
  end.

(** The fetch attempts recorded in a trace, per provider. *)
Definition youtube_fetches (tr : list event) : list value :=
  omap (fun ev => match ev with CallFetchYoutube h => Some h | _ => None end) tr.
Definition reddit_fetches (tr : list event) : list value :=
  omap (fun ev => match ev with CallFetchReddit h => Some h | _ => None end) tr.
Definition token_exchanges (tr : list event) : list string :=
  omap (fun ev => match ev with
                  | ReqFetchToken c | ReqAuthorize c => Some c
                  | _ => None
                  end) tr.

(** What the body of each fetcher's [try] evaluates to, as a function of
    the provider's answer alone. *)
Definition videos_of (w : Env) (youtube_api : value) : result (list value) :=
  match youtube_api with
  | VObj _ _ =>
      response ← videos_list_execute w youtube_api "snippet" "like" 10;
      items ← dict_get response "items" (VList []);
      items ← iterate items;
      videos_loop w items []
  | _ => Raise (AttributeError "videos")
  end.

Definition posts_of (w : Env) (reddit : value) : result (list value) :=
  match reddit with
  | VObj _ _ =>
      items ← user_me_saved w reddit 10;
      saved_posts ← saved_loop w (yielded items) [];
      match failure items with
      | Some e => Raise e
      | None => Ok saved_posts
      end
  | _ => Raise (AttributeError "user")
  end.

(** The provider requests a fetcher issues for a handle. *)
Definition youtube_requests (youtube_api : value) : list event :=
  match youtube_api with
  | VObj _ _ => [ReqVideosList youtube_api 10]
  | _ => []
  end.
Definition reddit_requests (reddit : value) : list event :=
  match reddit with
  | VObj _ _ => [ReqSaved reddit 10]
  | _ => []
  end.

(** [needle in text] *)
Definition contains (text needle : string) : Prop :=
  exists before after, text = before +:+ needle +:+ after.


(** The requests the application serves, and an upper bound on the sessions
    a request can start from: the empty session of a new client, and the
    session any handler leaves behind, also when the handler ended in an
    exception.  A session store that keeps less than the handlers wrote
    (Flask's signed cookie holds JSON values only, and a session it cannot
    write leaves the client with the one it had) hands on sessions that are
    among these. *)
Inductive request : Type :=
| GetIndex
| GetLogin
| GetYoutubeLogin
| GetRedditLogin
| GetYoutubeCallback (args : gmap string string)
| GetRedditCallback (args : gmap string string)
| GetLogoutYoutube
| GetLogoutReddit
| GetSync.

Definition serve (w : Env) (req : request) : M response :=
  match req with
  | GetIndex => index w
  | GetLogin => login
  | GetYoutubeLogin => youtube_login w
  | GetRedditLogin => reddit_login w
  | GetYoutubeCallback args => youtube_callback w args
  | GetRedditCallback args => reddit_callback w args
  | GetLogoutYoutube => logout_youtube
  | GetLogoutReddit => logout_reddit
  | GetSync => sync w
  end.

Inductive reachable : gmap string value -> Prop :=
| reachable_new : reachable ∅
| reachable_step s w req tr :
    reachable s ->
    reachable (session_after (serve w req (State s tr))).

(** What each fetcher hands back to [sync_content]: the video fetcher
    turns only an [HttpError] into the empty list, the discussion fetcher
    every exception. *)
Definition fetched_videos (w : Env) (h : value) : result value :=
  match videos_of w h with
  | Ok videos => Ok (VList videos)
  | Raise e => if is_HttpError e then Ok (VList []) else Raise e
  end.

Definition fetched_posts (w : Env) (h : value) : value :=
  VList (match posts_of w h with
         | Ok posts => posts
         | Raise _ => []
         end).

Definition videos_or_empty (w : Env) (h : value) : value :=
  match fetched_videos w h with
  | Ok videos => videos
  | Raise _ => VList []
  end.

(** The two refresh blocks of [sync_content] have one shape. *)
Definition refresh (handle_key items_key : string) (fetch : value -> M value)
  : M unit :=
  handle ← session_get handle_key;
  if truthy handle then
    handle ← session_getitem handle_key;
    items ← fetch handle;
    session_setitem items_key items
  else mret tt.

(** The stale gate in the spec's words: every provider with an active handle
    is fetched once and its cached list overwritten. *)
Definition overwrite (items_key : string) (handle : list value)
    (fetched : value -> value) (s : gmap string value) : gmap string value :=
  match handle with
  | h :: _ => <[items_key := fetched h]> s
  | [] => s
  end.

Definition fetch_trace (call : value -> event)
    (requests : value -> list event) (handle : list value) : list event :=
  match handle with
  | h :: _ => call h :: requests h
  | [] => []
  end.

(** [init_session] on the dictionary alone. *)
Definition setdefault (k : string) (v : value) (s : gmap string value)
  : gmap string value :=
  match s !! k with
  | Some _ => s
  | None => <[k := v]> s
  end.

Definition initialised (s : gmap string value) : gmap string value :=
  setdefault "oauth_flow" VNone
    (setdefault "oauth_state" VNone
       (setdefault "sync_interval" (VNum 60)
          (setdefault "last_sync_time" (VNum 0)
             (setdefault "reddit_posts" (VList [])
                (setdefault "youtube_videos" (VList [])
                   (setdefault "reddit" VNone
                      (setdefault "youtube_api" VNone
                         (setdefault "reddit_access_token" VNone
                            (setdefault "youtube_credentials" VNone
                               s))))))))).

(** [session[k]] on the dictionary alone. *)
Definition session_item (s : gmap string value) (k : string) : result value :=
  match s !! k with
  | Some v => Ok v
  | None => Raise (KeyError k)
  end.

(** [session.get(k)] *)
Definition get (s : gmap string value) (k : string) : value :=
  default VNone (s !! k).

(** What [index] answers once the session is initialised and synced: a
    function of the session alone. *)
Definition landing_page (w : Env) (s : gmap string value) : result response :=
  if negb (truthy (get s "youtube_credentials"))
     && negb (truthy (get s "reddit"))
  then location ← url_for "login"; mret (Redirect location)
  else
    youtube_videos ← session_item s "youtube_videos";
    reddit_posts ← session_item s "reddit_posts";
    last_sync_time ← session_item s "last_sync_time";
    shown ← ctime w last_sync_time;
    mret (Template "content.html"
            [("youtube_videos", youtube_videos);
             ("reddit_posts", reddit_posts);
             ("last_sync_time", VStr shown)]).

(** A computation that never stores anything but [None] under
    [reddit_access_token]. *)
Definition keeps_token_unset {A} (m : M A) : Prop :=
  forall st,
    get (session st) "reddit_access_token" = VNone ->
    get (session (snd (m st))) "reddit_access_token" = VNone.


(** ** Sample data

    A small outside world and a few sessions, on which the theorems below
    are instantiated. *)

Definition sample_str (v : value) : string :=
  match v with
  | VStr s => s
  | _ => "<object>"
  end.

Definition sample_exn_str (e : exn) : string :=
  match e with
  | KeyError k => "'" +:+ k +:+ "'"
  | TypeError m | AttributeError m | HttpError _ m | OtherError _ m => m
  end.

(** The sample providers honour the caps they are asked for: the video API
    answers with the first [maxResults] liked videos, the listing yields the
    first [limit] saved things. *)
Definition videos_response (items : list value) : value :=
  VDict [("kind", VStr "youtube#videoListResponse"); ("items", VList items)].

Definition sample_env (now : Z) (liked : result (list value))
    (saved_things : result listing) (exchange_error : option exn) : Env := {|
  time_time := now;
  time_ctime := fun _ => "Thu Jan  1 00:16:40 1970";
  str_value := sample_str;
  str_exn := sample_exn_str;
  NamedTemporaryFile := Ok "/tmp/tmpab12.json";
  temp_file_write := fun _ => Ok tt;
  os_unlink := fun _ => Ok tt;
  from_client_secrets_file := fun _ _ => Ok (VObj "InstalledAppFlow" []);
  authorization_url := fun flow =>
    Ok ("https://accounts.google.com/o/oauth2/auth", "abc", flow);
  fetch_token := fun _ code =>
    match exchange_error with
    | None => Ok (VObj "Credentials" [("token", VStr "ya29.a0")])
    | Some e => Raise e
    end;
  to_json := fun _ => Ok "{}";
  discovery_build := fun _ _ credentials =>
    Ok (VObj "Resource" [("credentials", credentials)]);
  videos_list_execute := fun _ _ _ maxResults =>
    match liked with
    | Ok items => Ok (videos_response (take (Z.to_nat maxResults) items))
    | Raise e => Raise e
    end;
  praw_Reddit := fun _ => Ok (VObj "Reddit" [("user", VObj "User" [])]);
  auth_url := fun _ _ _ _ => Ok "https://www.reddit.com/api/v1/authorize";
  auth_authorize := fun reddit code =>
    match exchange_error with
    | None => Ok reddit
    | Some e => Raise e
    end;
  user_me_saved := fun _ limit =>
    match saved_things with
    | Ok things =>
        Ok (Listing (take (Z.to_nat limit) (yielded things)) (failure things))
    | Raise e => Raise e
    end
|}.

(** A liked video as the API describes it, and one whose [thumbnails]
    object is empty. *)
Definition video_item (id title thumbnail : string) : value :=
  VDict [("id", VStr id);
         ("snippet",
          VDict [("title", VStr title);
                 ("thumbnails",
                  VDict [("default", VDict [("url", VStr thumbnail)])])])].

Definition video_item_no_thumbnail (id title : string) : value :=
  VDict [("id", VStr id);
         ("snippet", VDict [("title", VStr title); ("thumbnails", VDict [])])].

(** A saved submission and a saved comment. *)
Definition submission (title permalink subreddit : string) : value :=
  VObj "Submission"
    [("title", VStr title);
     ("permalink", VStr permalink);
     ("subreddit", VObj "Subreddit" [("display_name", VStr subreddit)])].

Definition comment (body permalink : string) : value :=
  VObj "Comment" [("body", VStr body); ("permalink", VStr permalink)].

Definition sample_saved : result listing :=
  Ok (Listing [submission "A post" "/r/rocq/comments/1" "rocq";
               comment "a comment" "/r/rocq/comments/1/c";
               submission "Another" "/r/ocaml/comments/2" "ocaml"] None).

(** A world in which both providers answer. *)
Definition healthy_env (now : Z) : Env :=
  sample_env now
    (Ok [video_item "v1" "First" "https://i.ytimg.com/1.jpg";
         video_item "v2" "Second" "https://i.ytimg.com/2.jpg"])
    sample_saved None.

(** A world in which one liked video comes without a thumbnail. *)
Definition missing_thumbnail_env (now : Z) : Env :=
  sample_env now
    (Ok [video_item "v1" "First" "https://i.ytimg.com/1.jpg";
         video_item_no_thumbnail "v2" "Second"])
    sample_saved None.

(** A world in which the connections to the providers fail below HTTP. *)
Definition transport_failure_env (now : Z) : Env :=
  sample_env now
    (Raise (OtherError "httplib2.error.ServerNotFoundError"
              "Unable to find the server at youtube.googleapis.com"))
    (Raise (OtherError "prawcore.exceptions.RequestException"
              "error with request"))
    (Some (OtherError "prawcore.exceptions.OAuthException"
             "invalid_grant error processing request")).

(** The client handles the sample SDKs build. *)
Definition youtube_handle : value :=
  VObj "Resource"
    [("credentials", VObj "Credentials" [("token", VStr "ya29.a0")])].
Definition reddit_client : value := VObj "Reddit" [("user", VObj "User" [])].
(** What [reddit_callback] stores under [reddit]: the client's [__dict__]. *)
Definition reddit_handle : value := VDict [("user", VObj "User" [])].

Definition no_session : gmap string value := ∅.
Definition new_client : state := State no_session [].

(** The session [init_session] builds for a new client. *)
Definition new_session : gmap string value := initialised no_session.

(** The records of the two sample videos and of the two sample
    submissions. *)
Definition sample_video_records : list value :=
  [VDict [("title", VStr "First");
          ("url", VStr "https://www.youtube.com/watch?v=v1");
          ("thumbnail", VStr "https://i.ytimg.com/1.jpg")];
   VDict [("title", VStr "Second");
          ("url", VStr "https://www.youtube.com/watch?v=v2");
          ("thumbnail", VStr "https://i.ytimg.com/2.jpg")]].

Definition sample_post_records : list value :=
  [VDict [("title", VStr "A post");
          ("url", VStr "https://reddit.com/r/rocq/comments/1");
          ("subreddit", VStr "rocq")];
   VDict [("title", VStr "Another");
          ("url", VStr "https://reddit.com/r/ocaml/comments/2");
          ("subreddit", VStr "ocaml")]].

(** A session holding the anti-forgery token "abc" and the flow dictionary,
    as [/youtube-login] assigns them, on top of the defaults, with the gate
    last passed at [t]. *)
Definition session_awaiting_callback (t : Z) : gmap string value :=
  <["oauth_flow" := VDict [("redirect_uri", VStr YOUTUBE_REDIRECT_URI)]]>
    (<["oauth_state" := VStr "abc"]>
       (<["last_sync_time" := VNum t]> new_session)).

(** A session holding what the two callbacks assign for both providers
    (the serialised credentials, the built client, the discussion client's
    dictionary) and the videos of a sync at [t].  It is the session the
    handlers build in a store that keeps the values they write. *)
Definition logged_in_session (t : Z) : gmap string value :=
  <["youtube_videos" := VList sample_video_records]>
    (<["reddit" := reddit_handle]>
       (<["youtube_api" := youtube_handle]>
          (<["youtube_credentials" := VStr "{}"]>
             (session_awaiting_callback t)))).

(** The sample world with other answers from outside: one in which
    [YOUTUBE_CLIENT_SECRET_JSON] is not set, so that the write of the
    secret raises ... *)
Definition secret_unset_env (now : Z) : Env :=
  let w := sample_env now (Ok []) sample_saved None in {|
  time_time := time_time w;
  time_ctime := time_ctime w;
  str_value := str_value w;
  str_exn := str_exn w;
  NamedTemporaryFile := NamedTemporaryFile w;
  temp_file_write := fun _ =>
    Raise (TypeError "write() argument must be str, not None");
  os_unlink := os_unlink w;
  from_client_secrets_file := from_client_secrets_file w;
  authorization_url := authorization_url w;
  fetch_token := fetch_token w;
  to_json := to_json w;
  discovery_build := discovery_build w;
  videos_list_execute := videos_list_execute w;
  praw_Reddit := praw_Reddit w;
  auth_url := auth_url w;
  auth_authorize := auth_authorize w;
  user_me_saved := user_me_saved w
|}.

(** ... and one whose providers answer with twelve items whatever number
    they are asked for. *)
Definition twelve : list string :=
  ["a"; "b"; "c"; "d"; "e"; "f"; "g"; "h"; "i"; "j"; "k"; "l"].

Definition twelve_videos : list value :=
  map (fun id => video_item id ("Video " +:+ id)
                   ("https://i.ytimg.com/" +:+ id +:+ ".jpg")) twelve.

Definition twelve_submissions : list value :=
  map (fun id => submission ("Post " +:+ id) ("/r/rocq/comments/" +:+ id)
                   "rocq") twelve.

Definition uncapped_env (now : Z) : Env :=
  let w := sample_env now (Ok []) sample_saved None in {|
  time_time := time_time w;
  time_ctime := time_ctime w;
  str_value := str_value w;
  str_exn := str_exn w;
  NamedTemporaryFile := NamedTemporaryFile w;
  temp_file_write := temp_file_write w;
  os_unlink := os_unlink w;
  from_client_secrets_file := from_client_secrets_file w;
  authorization_url := authorization_url w;
  fetch_token := fetch_token w;
  to_json := to_json w;
  discovery_build := discovery_build w;
  videos_list_execute := fun _ _ _ _ => Ok (videos_response twelve_videos);
  praw_Reddit := praw_Reddit w;
  auth_url := auth_url w;
  auth_authorize := auth_authorize w;
  user_me_saved := fun _ _ => Ok (Listing twelve_submissions None)
|}.

(** The records of the twelve videos and of the twelve submissions. *)
Definition twelve_video_records : list value :=
  map (fun id => VDict [("title", VStr ("Video " +:+ id));
                        ("url", VStr ("https://www.youtube.com/watch?v=" +:+ id));
                        ("thumbnail",
                         VStr ("https://i.ytimg.com/" +:+ id +:+ ".jpg"))])
    twelve.

Definition twelve_post_records : list value :=
  map (fun id => VDict [("title", VStr ("Post " +:+ id));
                        ("url",
                         VStr ("https://reddit.com/r/rocq/comments/" +:+ id));
                        ("subreddit", VStr "rocq")])
    twelve.

(** ** Vocabulary of the further properties *)

(** A relation between the state before and after that holds for every run
    of a computation, whether it returns or raises. *)
Definition relates {A} (R : state -> state -> Prop) (m : M A) : Prop :=
  forall st, R st (snd (m st)).

(** Every binding of a key outside [K] is still there afterwards. *)
Definition keeps_bindings (K : list string) (st st' : state) : Prop :=
  forall k v, k ∉ K -> session st !! k = Some v -> session st' !! k = Some v.

(** No key disappears. *)
Definition keys_grow (st st' : state) : Prop :=
  forall k, is_Some (session st !! k) -> is_Some (session st' !! k).

(** The calls made before are still the start of the trace. *)
Definition trace_extends (st st' : state) : Prop :=
  exists new, trace st' = trace st ++ new.

(** The keys whose value a request may replace. *)
Definition may_overwrite (req : request) : list string :=
  match req with
  | GetIndex | GetSync => ["youtube_videos"; "reddit_posts"; "last_sync_time"]
  | GetLogin | GetRedditLogin => []
  | GetYoutubeLogin => ["oauth_state"; "oauth_flow"]
  | GetYoutubeCallback _ =>
      ["youtube_credentials"; "youtube_api";
       "youtube_videos"; "reddit_posts"; "last_sync_time"]
  | GetRedditCallback _ =>
      ["reddit"; "youtube_videos"; "reddit_posts"; "last_sync_time"]
  | GetLogoutYoutube => ["youtube_credentials"; "youtube_api"; "youtube_videos"]
  | GetLogoutReddit => ["reddit"; "reddit_posts"]
  end.

(** The keys [init_session] creates and the value each one starts with. *)
Definition session_defaults : list (string * value) :=
  [("youtube_credentials", VNone);
   ("reddit_access_token", VNone);
   ("youtube_api", VNone);
   ("reddit", VNone);
   ("youtube_videos", VList []);
   ("reddit_posts", VList []);
   ("last_sync_time", VNum 0);
   ("sync_interval", VNum 60);
   ("oauth_state", VNone);
   ("oauth_flow", VNone)].

(** What the handlers store under each key: the shape a value must have
    for its key. *)
Definition field_ok (k : string) (v : value) : Prop :=
  (k = "sync_interval" -> v = VNum 60) /\
  (k = "last_sync_time" -> exists t, v = VNum t) /\
  (k = "youtube_credentials" -> v = VNone \/ exists json, v = VStr json) /\
  (k = "youtube_videos" -> exists videos, v = VList videos) /\
  (k = "reddit" -> v = VNone \/ exists attrs, v = VDict attrs) /\
  (k = "reddit_posts" -> v = VList []) /\
  (k = "reddit_access_token" -> v = VNone) /\
  (k = "oauth_state" -> v = VNone \/ exists token, v = VStr token) /\
  (k = "oauth_flow" -> v = VNone \/ exists attrs, v = VDict attrs).

Definition well_formed (s : gmap string value) : Prop :=
  forall k v, s !! k = Some v -> field_ok k v.

Definition stays_well_formed (st st' : state) : Prop :=
  well_formed (session st) -> well_formed (session st').

(** The SDK side of a video callback in which every call goes well: the
    secret file is created at [path] and written, the flow is built, the
    code is exchanged for [credentials], these serialise to [json], the
    client [youtube_api] is built from them, and the file can be removed. *)
Definition youtube_exchange_succeeds (w : Env) (code path : string)
    (credentials : value) (json : string) (youtube_api : value) : Prop :=
  exists flow flow',
    NamedTemporaryFile w = Ok path /\
    temp_file_write w path = Ok tt /\
    from_client_secrets_file w path YOUTUBE_SCOPES = Ok flow /\
    py_setattr flow "redirect_uri" (VStr YOUTUBE_REDIRECT_URI) = Ok flow' /\
    fetch_token w flow' code = Ok credentials /\
    to_json w credentials = Ok json /\
    discovery_build w YOUTUBE_API_SERVICE_NAME YOUTUBE_API_VERSION credentials
      = Ok youtube_api /\
    os_unlink w path = Ok tt.

(** The session and trace a video callback hands to [sync_content] after
    such an exchange. *)
Definition after_youtube_exchange (st : state) (path code json : string)
    (youtube_api : value) : state :=
  State (<["youtube_api" := youtube_api]>
           (<["youtube_credentials" := VStr json]> (session st)))
        (trace st ++ [TempFileCreated path; TempFileWritten;
                      ReqFetchToken code]).

(** The same for a discussion callback whose exchange returned a client with
    attributes [attrs]. *)
Definition after_reddit_exchange (st : state) (code : string)
    (attrs : list (string * value)) : state :=
  State (<["reddit" := VDict attrs]> (session st))
        (trace st ++ [ReqAuthorize code]).

(** A world whose saved listing holds a submission without [permalink]. *)
Definition broken_submission : value :=
  VObj "Submission" [("title", VStr "No link")].

Definition broken_listing_env (now : Z) : Env :=
  sample_env now (Ok [])
    (Ok (Listing [submission "A post" "/r/rocq/comments/1" "rocq";
                  broken_submission] None))
    None.

(** ** The fetchers *)

Ltac unfold_monad :=
  unfold mbind, M_bind, result_bind, mret, M_ret, result_ret, lift, emit,
    try_except, try_finally, session_getitem, session_get, session_contains,
    session_setitem in *.

(** The video fetcher in closed form: it leaves the session alone, records
    its call and its request, and hands back [fetched_videos]. *)
Lemma fetch_youtube_saved_videos_eq (w : Env) (h : value) (st : state) :
  fetch_youtube_saved_videos w h st =
  (fetched_videos w h,
   State (session st) (trace st ++ CallFetchYoutube h :: youtube_requests h)).
Proof.
  unfold fetch_youtube_saved_videos, fetched_videos, videos_of, videos_list,
    youtube_requests.
  destruct h; unfold_monad; cbn; try reflexivity.
  rewrite <- app_assoc; cbn.
  destruct (videos_list_execute w _ _ _ _) as [response|e]; cbn;
    [|destruct (is_HttpError e); reflexivity].
  destruct (dict_get response _ _) as [items|e]; cbn;
    [|destruct (is_HttpError e); reflexivity].
  destruct (iterate items) as [its|e]; cbn;
    [|destruct (is_HttpError e); reflexivity].
  destruct (videos_loop w its []) as [videos|e]; cbn;
    [reflexivity|destruct (is_HttpError e); reflexivity].
Qed.

(** The discussion fetcher in closed form. *)
Lemma fetch_reddit_saved_posts_eq (w : Env) (h : value) (st : state) :
  fetch_reddit_saved_posts w h st =
  (Ok (fetched_posts w h),
   State (session st) (trace st ++ CallFetchReddit h :: reddit_requests h)).
Proof.
  unfold fetch_reddit_saved_posts, fetched_posts, posts_of, saved,
    reddit_requests.
  destruct h; unfold_monad; cbn; try reflexivity.
  rewrite <- app_assoc; cbn.
  destruct (user_me_saved w _ _) as [items|e]; cbn; [|reflexivity].
  destruct (saved_loop w (yielded items) []) as [posts|e]; cbn; [|reflexivity].
  destruct (failure items); reflexivity.
Qed.

(** The discussion fetcher is fail-soft: it returns a list whatever
    happens, the empty one when anything was raised. *)
Lemma fetch_reddit_never_raises (w : Env) (h : value) (st : state) :
  exists posts,
    outcome (fetch_reddit_saved_posts w h st) = Ok (VList posts) /\
    (forall e, posts_of w h = Raise e -> posts = []).
Proof.
  rewrite fetch_reddit_saved_posts_eq. unfold fetched_posts.
  eexists; split; [reflexivity|].
  intros e He. by rewrite He.
Qed.

(** Handed the dictionary that [reddit_callback] stores (the client's
    [__dict__]) the discussion fetcher finds no attribute [user], makes no
    request and returns the empty list. *)
Lemma fetch_reddit_on_stored_dict (w : Env) (d : list (string * value))
    (st : state) :
  fetch_reddit_saved_posts w (VDict d) st =
  (Ok (VList []), State (session st) (trace st ++ [CallFetchReddit (VDict d)])).
Proof. by rewrite fetch_reddit_saved_posts_eq. Qed.

(** The video fetcher turns an [HttpError] into the empty list ... *)
Lemma fetch_youtube_catches_HttpError (w : Env) (h : value) (st : state)
    (e : exn) :
  videos_of w h = Raise e -> is_HttpError e = true ->
  outcome (fetch_youtube_saved_videos w h st) = Ok (VList []).
Proof.
  intros He Hhttp. rewrite fetch_youtube_saved_videos_eq.
  unfold fetched_videos. by rewrite He, Hhttp.
Qed.

(** ... and lets every other exception through. *)
Lemma fetch_youtube_propagates (w : Env) (h : value) (st : state) (e : exn) :
  videos_of w h = Raise e -> is_HttpError e = false ->
  outcome (fetch_youtube_saved_videos w h st) = Raise e.
Proof.
  intros He Hhttp. rewrite fetch_youtube_saved_videos_eq.
  unfold fetched_videos. by rewrite He, Hhttp.
Qed.

(** C1 (the code departs from the claim).  The discussion fetcher returns
    the empty list when the provider fails, but the video fetcher catches
    [HttpError] only: a liked video with an empty [thumbnails] object makes
    it raise [KeyError], and a connection failure below HTTP passes through
    it unchanged. *)
Theorem fetch_youtube_lets_errors_escape :
  outcome (fetch_youtube_saved_videos (missing_thumbnail_env 1000)
             youtube_handle new_client)
  = Raise (KeyError "default") /\
  outcome (fetch_youtube_saved_videos (transport_failure_env 1000)
             youtube_handle new_client)
  = Raise (OtherError "httplib2.error.ServerNotFoundError"
             "Unable to find the server at youtube.googleapis.com") /\
  outcome (fetch_reddit_saved_posts (transport_failure_env 1000)
             reddit_client new_client)
  = Ok (VList []).
Proof. repeat split; reflexivity. Qed.

(** *** Cap and order *)

Section Loops.

Context (w : Env).




End Loops.

(** Twelve items in, twelve records out, for both fetchers. *)
Lemma uncapped_fetchers_return_twelve :
  outcome (fetch_youtube_saved_videos (uncapped_env 1000) youtube_handle
             new_client) = Ok (VList twelve_video_records) /\
  outcome (fetch_reddit_saved_posts (uncapped_env 1000) reddit_client
             new_client) = Ok (VList twelve_post_records) /\
  length twelve_video_records = 12%nat /\
  length twelve_post_records = 12%nat.
Proof. repeat split; vm_compute; reflexivity. Qed.






(** ** The sync gate *)

(** [sync_content] is the gate followed by two refresh blocks of one shape
    and the update of the timestamp. *)
Lemma sync_content_phases (w : Env) :
  sync_content w =
  (let current_time := VNum (time_time w) in
   last ← session_getitem "last_sync_time";
   elapsed ← lift (py_sub current_time last);
   interval ← session_getitem "sync_interval";
   stale ← lift (py_ge elapsed interval);
   if stale : bool then
     refresh "youtube_api" "youtube_videos" (fetch_youtube_saved_videos w);;
     refresh "reddit" "reddit_posts" (fetch_reddit_saved_posts w);;
     session_setitem "last_sync_time" current_time
   else mret tt).
Proof. reflexivity. Qed.

Lemma active_handle_cases (s : gmap string value) (k : string) :
  active_handle s k = [] \/
  exists h, active_handle s k = [h] /\ s !! k = Some h /\ truthy h = true.
Proof.
  unfold active_handle. destruct (s !! k) as [h|]; [|by left].
  destruct (truthy h) eqn:E; [right; eauto|by left].
Qed.

Lemma active_handle_insert_ne (s : gmap string value) (k k' : string)
    (v : value) :
  k ≠ k' -> active_handle (<[k' := v]> s) k = active_handle s k.
Proof. intros. unfold active_handle. by rewrite lookup_insert_ne. Qed.

Lemma refresh_inactive hk ik fetch st :
  active_handle (session st) hk = [] -> refresh hk ik fetch st = (Ok tt, st).
Proof.
  unfold refresh, active_handle. unfold_monad. intros H.
  destruct (session st !! hk) as [h|]; cbn; [|done].
  destruct (truthy h); done.
Qed.

Lemma refresh_active hk ik fetch st h :
  active_handle (session st) hk = [h] ->
  refresh hk ik fetch st =
  match fetch h st with
  | (Ok items, st') =>
      (Ok tt, State (<[ik := items]> (session st')) (trace st'))
  | (Raise e, st') => (Raise e, st')
  end.
Proof.
  unfold refresh, active_handle. unfold_monad. intros H.
  destruct (session st !! hk) as [h'|] eqn:E; cbn; [|done].
  destruct (truthy h'); [|done]. simplify_eq. rewrite E.
  by destruct (fetch h st) as [[?|?] ?].
Qed.

(** The gate itself: with numeric fields, [sync_content] goes on exactly
    when [now - last_sync_time >= sync_interval]. *)
Lemma sync_content_gate (w : Env) (st : state) (lv iv_v : value) (l iv : Z) :
  session st !! "last_sync_time" = Some lv -> as_number lv = Some l ->
  session st !! "sync_interval" = Some iv_v -> as_number iv_v = Some iv ->
  sync_content w st =
  if iv <=? time_time w - l then
    (refresh "youtube_api" "youtube_videos" (fetch_youtube_saved_videos w);;
     refresh "reddit" "reddit_posts" (fetch_reddit_saved_posts w);;
     session_setitem "last_sync_time" (VNum (time_time w))) st
  else (Ok tt, st).
Proof.
  intros Hl Hln Hi Hin. rewrite sync_content_phases. cbv zeta.
  unfold_monad. rewrite Hl. unfold py_sub. cbn [as_number].
  rewrite Hln, Hi. unfold py_ge. cbn [as_number]. rewrite Hin.
  by destruct (iv <=? time_time w - l).
Qed.

(** The stale gate refines the spec's words, as long as the video fetcher
    returns: each provider with an active handle is fetched once, in turn,
    its list overwritten with what was fetched, and the timestamp set. *)
Lemma sync_content_stale (w : Env) (st : state) (lv iv_v : value) (l iv : Z) :
  session st !! "last_sync_time" = Some lv -> as_number lv = Some l ->
  session st !! "sync_interval" = Some iv_v -> as_number iv_v = Some iv ->
  iv <= time_time w - l ->
  (forall h, active_handle (session st) "youtube_api" = [h] ->
             exists videos, fetched_videos w h = Ok videos) ->
  sync_content w st =
  (Ok tt,
   State
     (<["last_sync_time" := VNum (time_time w)]>
        (overwrite "reddit_posts" (active_handle (session st) "reddit")
           (fetched_posts w)
           (overwrite "youtube_videos"
              (active_handle (session st) "youtube_api")
              (videos_or_empty w) (session st))))
     (trace st
      ++ fetch_trace CallFetchYoutube youtube_requests
           (active_handle (session st) "youtube_api")
      ++ fetch_trace CallFetchReddit reddit_requests
           (active_handle (session st) "reddit"))).
Proof.
  intros Hl Hln Hi Hin Hstale Hret.
  rewrite (sync_content_gate _ _ _ _ _ _ Hl Hln Hi Hin).
  assert ((iv <=? time_time w - l) = true) as -> by lia.
  unfold_monad.
  destruct (active_handle_cases (session st) "youtube_api")
    as [Hy|(h & Hy & _)].
  - rewrite (refresh_inactive _ _ _ _ Hy), Hy. cbn [overwrite fetch_trace app].
    destruct (active_handle_cases (session st) "reddit") as [Hr|(r & Hr & _)].
    + rewrite (refresh_inactive _ _ _ _ Hr), Hr.
      cbn [overwrite fetch_trace session trace]. by rewrite app_nil_r.
    + by rewrite (refresh_active _ _ _ _ _ Hr), Hr,
        fetch_reddit_saved_posts_eq.
  - destruct (Hret h Hy) as [v Hv].
    rewrite (refresh_active _ _ _ _ _ Hy), Hy, fetch_youtube_saved_videos_eq.
    rewrite Hv. cbn [overwrite fetch_trace].
    destruct (active_handle_cases (session st) "reddit") as [Hr|(r & Hr & _)].
    + rewrite refresh_inactive by (cbn; by rewrite active_handle_insert_ne).
      rewrite Hr. cbn [overwrite fetch_trace session trace].
      unfold videos_or_empty. by rewrite Hv, app_nil_r.
    + rewrite (refresh_active _ _ _ _ r)
        by (cbn; by rewrite active_handle_insert_ne).
      rewrite Hr, fetch_reddit_saved_posts_eq.
      cbn [overwrite fetch_trace session trace].
      unfold videos_or_empty. by rewrite Hv, <- app_assoc.
Qed.

(** When the video fetcher raises, [sync_content] stops there: the
    exception leaves it, nothing is stored, the other provider is not
    fetched and the timestamp stays. *)
Lemma sync_content_stale_raises (w : Env) (st : state) (lv iv_v : value)
    (l iv : Z) (h : value) (e : exn) :
  session st !! "last_sync_time" = Some lv -> as_number lv = Some l ->
  session st !! "sync_interval" = Some iv_v -> as_number iv_v = Some iv ->
  iv <= time_time w - l ->
  active_handle (session st) "youtube_api" = [h] ->
  fetched_videos w h = Raise e ->
  sync_content w st =
  (Raise e,
   State (session st) (trace st ++ CallFetchYoutube h :: youtube_requests h)).
Proof.
  intros Hl Hln Hi Hin Hstale Hy He.
  rewrite (sync_content_gate _ _ _ _ _ _ Hl Hln Hi Hin).
  assert ((iv <=? time_time w - l) = true) as -> by lia.
  unfold_monad.
  by rewrite (refresh_active _ _ _ _ _ Hy), fetch_youtube_saved_videos_eq, He.
Qed.

(** The fetch attempts in the trace of a stale sync are one per active
    handle. *)
Lemma fetches_of_stale_trace (s : gmap string value) :
  let new :=
    fetch_trace CallFetchYoutube youtube_requests
      (active_handle s "youtube_api")
    ++ fetch_trace CallFetchReddit reddit_requests (active_handle s "reddit")
  in
  youtube_fetches new = active_handle s "youtube_api" /\
  reddit_fetches new = active_handle s "reddit".
Proof.
  destruct (active_handle_cases s "youtube_api") as [->|(h & -> & _)];
    destruct (active_handle_cases s "reddit") as [->|(r & -> & _)];
    cbn; try done.
  - by destruct r.
  - by destruct h.
  - by destruct h, r.
Qed.

(** C3.  While [now - last_sync_time < sync_interval] the gate is a no-op:
    [sync_content] returns with the session as it was (both cached lists
    and the timestamp included) and with nothing added to the trace, so no
    fetch was attempted. *)
Theorem sync_content_fresh_is_noop (w : Env) (st : state) (lv iv_v : value)
    (l iv : Z) :
  session st !! "last_sync_time" = Some lv -> as_number lv = Some l ->
  session st !! "sync_interval" = Some iv_v -> as_number iv_v = Some iv ->
  time_time w - l < iv ->
  outcome (sync_content w st) = Ok tt /\
  session_after (sync_content w st) = session st /\
  session_after (sync_content w st) !! "youtube_videos"
    = session st !! "youtube_videos" /\
  session_after (sync_content w st) !! "reddit_posts"
    = session st !! "reddit_posts" /\
  session_after (sync_content w st) !! "last_sync_time"
    = session st !! "last_sync_time" /\
  trace_after (sync_content w st) = trace st.
Proof.
  intros Hl Hln Hi Hin Hfresh.
  rewrite (sync_content_gate _ _ _ _ _ _ Hl Hln Hi Hin).
  assert ((iv <=? time_time w - l) = false) as -> by lia.
  done.
Qed.

Lemma sync_content_fresh_is_noop_witness :
  outcome (sync_content (healthy_env 1130) (State (logged_in_session 1100) []))
    = Ok tt /\
  session_after
    (sync_content (healthy_env 1130) (State (logged_in_session 1100) []))
    = logged_in_session 1100 /\
  trace_after
    (sync_content (healthy_env 1130) (State (logged_in_session 1100) []))
    = [].
Proof.
  destruct (sync_content_fresh_is_noop (healthy_env 1130)
              (State (logged_in_session 1100) [])
              (VNum 1100) (VNum 60) 1100 60)
    as (Hout & Hsession & _ & _ & _ & Htrace);
    [vm_compute; reflexivity | reflexivity | vm_compute; reflexivity
    | reflexivity | cbn; lia |].
  exact (conj Hout (conj Hsession Htrace)).
Defined.

(** C4 (the code departs from the claim).  On a session that holds both
    providers' handles, when the gate is stale and one liked video has no
    thumbnail, the video fetcher raises, and [sync_content] ends there with
    that exception.  The discussion provider, whose handle is active, is not
    fetched, no list is overwritten and [last_sync_time] keeps its old
    value. *)
Theorem sync_content_stops_at_youtube_error :
  let st := State (logged_in_session 1100) [] in
  let run := sync_content (missing_thumbnail_env 1200) st in
  session st !! "last_sync_time" = Some (VNum 1100) /\
  session st !! "sync_interval" = Some (VNum 60) /\
  active_handle (session st) "youtube_api" = [youtube_handle] /\
  active_handle (session st) "reddit" = [reddit_handle] /\
  outcome run = Raise (KeyError "default") /\
  trace_after run =
    [CallFetchYoutube youtube_handle; ReqVideosList youtube_handle 10] /\
  reddit_fetches (trace_after run) = [] /\
  session_after run = session st /\
  session_after run !! "last_sync_time" = Some (VNum 1100).
Proof. cbv zeta. repeat split; vm_compute; reflexivity. Qed.

(** *** The landing route *)

Lemma init_key_eq (k : string) (v : value) (st : state) :
  init_key k v st = (Ok tt, State (setdefault k v (session st)) (trace st)).
Proof.
  unfold init_key, setdefault. unfold_monad. destruct st as [s tr]; cbn.
  destruct (s !! k); cbn; done.
Qed.

Lemma init_session_eq (st : state) :
  init_session st = (Ok tt, State (initialised (session st)) (trace st)).
Proof.
  unfold init_session, initialised. unfold mbind, M_bind.
  by rewrite !init_key_eq.
Qed.

(** [index] initialises the session, runs the gate, and answers from the
    session it finds afterwards. *)
Lemma index_eq (w : Env) (st : state) :
  index w st =
  match sync_content w (State (initialised (session st)) (trace st)) with
  | (Ok _, st') => (landing_page w (session st'), st')
  | (Raise e, st') => (Raise e, st')
  end.
Proof.
  unfold index, landing_page. unfold_monad. rewrite init_session_eq.
  destruct (sync_content w _) as [[[]|e] st']; [|done].
  unfold get, session_item.
  destruct (truthy (default VNone (session st' !! "youtube_credentials")));
    cbn [negb andb].
  2: destruct (truthy (default VNone (session st' !! "reddit")));
       cbn [negb]; [|done].
  all: destruct (session st' !! "youtube_videos"); [|done].
  all: destruct (session st' !! "reddit_posts"); [|done].
  all: destruct (session st' !! "last_sync_time") as [t|]; [|done].
  all: by destruct (ctime w t).
Qed.

(** C10.  With a stale gate and no active client handle, [sync_content]
    fetches nothing and changes nothing but [last_sync_time], which becomes
    [now]; the landing route, which runs it right after [init_session],
    therefore uses up the sync window of a client that is not logged in. *)
Theorem sync_content_unauthenticated_consumes_window (w : Env)
    (s : gmap string value) (tr : list event) (lv iv_v : value) (l iv : Z) :
  s !! "last_sync_time" = Some lv -> as_number lv = Some l ->
  s !! "sync_interval" = Some iv_v -> as_number iv_v = Some iv ->
  iv <= time_time w - l ->
  active_handle s "youtube_api" = [] ->
  active_handle s "reddit" = [] ->
  let run := sync_content w (State s tr) in
  (outcome run = Ok tt /\
   session_after run = <["last_sync_time" := VNum (time_time w)]> s /\
   session_after run !! "last_sync_time" = Some (VNum (time_time w)) /\
   session_after run !! "youtube_videos" = s !! "youtube_videos" /\
   session_after run !! "reddit_posts" = s !! "reddit_posts" /\
   trace_after run = tr) /\
  (forall st,
     initialised (session st) = s -> trace st = tr ->
     session_after (index w st)
       = <["last_sync_time" := VNum (time_time w)]> s /\
     trace_after (index w st) = tr).
Proof.
  intros Hl Hln Hi Hin Hstale Hy Hr run. subst run.
  assert (Hrun : sync_content w (State s tr) =
                 (Ok tt,
                  State (<["last_sync_time" := VNum (time_time w)]> s) tr)).
  { rewrite (sync_content_stale w (State s tr) lv iv_v l iv) by
      (try done; cbn [session]; intros h Hh; congruence).
    cbn [session trace]. rewrite Hy, Hr. cbn [overwrite fetch_trace].
    by rewrite !app_nil_r. }
  split.
  - rewrite Hrun.
    cbn [outcome session_after trace_after fst snd session trace].
    by rewrite lookup_insert_eq, !lookup_insert_ne.
  - intros st Hs Htr. rewrite index_eq, Hs, Htr, Hrun. done.
Qed.

Lemma sync_content_unauthenticated_consumes_window_witness :
  session_after (sync_content (healthy_env 1000) (State new_session []))
    !! "last_sync_time" = Some (VNum 1000) /\
  trace_after (sync_content (healthy_env 1000) (State new_session [])) = [] /\
  session_after (index (healthy_env 1000) new_client)
    !! "last_sync_time" = Some (VNum 1000) /\
  trace_after (index (healthy_env 1000) new_client) = [].
Proof.
  destruct (sync_content_unauthenticated_consumes_window (healthy_env 1000)
              new_session [] (VNum 0) (VNum 60) 0 60)
    as ((_ & _ & Htime & _ & _ & Htrace) & Hindex);
    [reflexivity | reflexivity | reflexivity | reflexivity | cbn; lia
    | reflexivity | reflexivity |].
  destruct (Hindex new_client eq_refl eq_refl) as (Hs & Ht).
  rewrite Hs. repeat split; assumption || reflexivity.
Defined.

(** *** Force sync *)

(** [/sync] is [sync_content] run on the session with [last_sync_time]
    zeroed. *)
Lemma sync_eq (w : Env) (st : state) :
  sync w st =
  match sync_content w
          (State (<["last_sync_time" := VNum 0]> (session st)) (trace st)) with
  | (Ok _, st') => (Ok (Redirect "/"), st')
  | (Raise e, st') => (Raise e, st')
  end.
Proof.
  unfold sync. unfold_monad. cbn.
  by destruct (sync_content w _) as [[[]|e] st'].
Qed.

(** The reset makes the gate compare [now - 0] with [sync_interval]: with
    a clock that reads less than the interval, [/sync] zeroes
    [last_sync_time] and fetches nothing. *)
Lemma force_sync_below_interval (w : Env) (st : state) (iv_v : value)
    (iv : Z) :
  session st !! "sync_interval" = Some iv_v -> as_number iv_v = Some iv ->
  time_time w < iv ->
  sync w st =
  (Ok (Redirect "/"),
   State (<["last_sync_time" := VNum 0]> (session st)) (trace st)).
Proof.
  intros Hi Hin Hnow. rewrite sync_eq.
  rewrite (sync_content_gate w _ (VNum 0) iv_v 0 iv);
    [|apply lookup_insert_eq | reflexivity
     |cbn [session]; by rewrite lookup_insert_ne | exact Hin].
  by assert ((iv <=? time_time w - 0) = false) as -> by lia.
Qed.

(** Once the clock has passed [sync_interval] (as every real one has),
    [/sync] finds the gate stale whatever [last_sync_time] was before: as
    long as the video fetcher returns, each provider with an active handle
    is fetched exactly once, [last_sync_time] becomes [now], and the client
    is sent back to the landing route. *)
Lemma force_sync_fetches_once_interval_elapsed (w : Env) (st : state)
    (iv_v : value) (iv : Z) :
  session st !! "sync_interval" = Some iv_v -> as_number iv_v = Some iv ->
  iv <= time_time w ->
  (forall h, active_handle (session st) "youtube_api" = [h] ->
             exists videos, fetched_videos w h = Ok videos) ->
  exists new,
    outcome (sync w st) = Ok (Redirect "/") /\
    trace_after (sync w st) = trace st ++ new /\
    youtube_fetches new = active_handle (session st) "youtube_api" /\
    reddit_fetches new = active_handle (session st) "reddit" /\
    session_after (sync w st) !! "last_sync_time"
      = Some (VNum (time_time w)).
Proof.
  intros Hi Hin Hnow Hret.
  set (s0 := <["last_sync_time" := VNum 0]> (session st)).
  assert (Hy : active_handle s0 "youtube_api"
               = active_handle (session st) "youtube_api")
    by (by apply active_handle_insert_ne).
  assert (Hr : active_handle s0 "reddit" = active_handle (session st) "reddit")
    by (by apply active_handle_insert_ne).
  pose proof (fetches_of_stale_trace (session st)) as [Hfy Hfr].
  eexists. rewrite sync_eq. fold s0.
  rewrite (sync_content_stale w (State s0 (trace st)) (VNum 0) iv_v 0 iv).
  - cbn [outcome session_after trace_after fst snd session trace].
    rewrite Hy, Hr, lookup_insert_eq. repeat split; eassumption.
  - apply lookup_insert_eq.
  - reflexivity.
  - cbn [session]. subst s0. by rewrite lookup_insert_ne.
  - exact Hin.
  - lia.
  - cbn [session]. rewrite Hy. exact Hret.
Qed.

(** When the video fetcher raises, [/sync] ends with its exception right
    after the video request: no discussion fetch is attempted, and
    [last_sync_time] stays at the zero [/sync] wrote. *)
Lemma force_sync_video_fetcher_raises (w : Env) (st : state) (iv_v : value)
    (iv : Z) (h : value) (e : exn) :
  session st !! "sync_interval" = Some iv_v -> as_number iv_v = Some iv ->
  iv <= time_time w ->
  active_handle (session st) "youtube_api" = [h] ->
  fetched_videos w h = Raise e ->
  sync w st =
  (Raise e,
   State (<["last_sync_time" := VNum 0]> (session st))
         (trace st ++ CallFetchYoutube h :: youtube_requests h)).
Proof.
  intros Hi Hin Hnow Hy He. rewrite sync_eq.
  rewrite (sync_content_stale_raises w _ (VNum 0) iv_v 0 iv h e); try done.
  - apply lookup_insert_eq.
  - cbn [session]. by rewrite lookup_insert_ne.
  - lia.
  - cbn [session]. by rewrite active_handle_insert_ne.
Qed.

(** C5 (the code departs from the claim).  [/sync] at time 1200 on a
    session that holds both providers' handles zeroes [last_sync_time] and
    finds the gate stale, as its comment [# Force sync] intends.  But when
    the video request fails below HTTP, or a liked video comes without a
    thumbnail, the video fetcher raises and [/sync] ends there with that
    exception: the discussion provider, whose handle is active, gets no
    fetch attempt, and [last_sync_time] is left at zero.  In a world whose
    video fetcher returns, the same request fetches each provider once and
    sets [last_sync_time] to 1200. *)
Theorem force_sync_stops_at_youtube_error :
  let st := State (logged_in_session 1100) [] in
  (active_handle (session st) "youtube_api" = [youtube_handle] /\
   active_handle (session st) "reddit" = [reddit_handle]) /\
  (let run := sync (transport_failure_env 1200) st in
   outcome run
     = Raise (OtherError "httplib2.error.ServerNotFoundError"
                "Unable to find the server at youtube.googleapis.com") /\
   trace_after run =
     [CallFetchYoutube youtube_handle; ReqVideosList youtube_handle 10] /\
   reddit_fetches (trace_after run) = [] /\
   session_after run !! "last_sync_time" = Some (VNum 0)) /\
  (let run := sync (missing_thumbnail_env 1200) st in
   outcome run = Raise (KeyError "default") /\
   trace_after run =
     [CallFetchYoutube youtube_handle; ReqVideosList youtube_handle 10] /\
   reddit_fetches (trace_after run) = [] /\
   session_after run !! "last_sync_time" = Some (VNum 0)) /\
  (let run := sync (healthy_env 1200) st in
   outcome run = Ok (Redirect "/") /\
   youtube_fetches (trace_after run) = [youtube_handle] /\
   reddit_fetches (trace_after run) = [reddit_handle] /\
   session_after run !! "last_sync_time" = Some (VNum 1200)).
Proof. cbv zeta. repeat split; vm_compute; reflexivity. Qed.

(** ** The authorization callbacks *)

(** C6.  A video callback whose query lacks [code] or [state] is answered
    with status 400 and the text "Error: Missing code or state parameter";
    the session ([oauth_state] included) and the trace are left as they
    were. *)
Theorem youtube_callback_missing_parameter (w : Env)
    (args : gmap string string) (st : state) :
  args !! "code" = None \/ args !! "state" = None ->
  exists body,
    outcome (youtube_callback w args st) = Ok (Body body 400) /\
    contains body "Missing code or state parameter" /\
    session_after (youtube_callback w args st) !! "oauth_state"
      = session st !! "oauth_state" /\
    session_after (youtube_callback w args st) = session st /\
    trace_after (youtube_callback w args st) = trace st.
Proof.
  intros Hmissing.
  exists "Error: Missing code or state parameter".
  assert (Hrun : youtube_callback w args st =
                 (Ok (Body "Error: Missing code or state parameter" 400), st)).
  { unfold youtube_callback.
    destruct Hmissing as [-> | ->]; [done|].
    by destruct (args !! "code"). }
  rewrite Hrun. repeat split.
  by exists "Error: ", "".
Qed.

Lemma youtube_callback_missing_parameter_witness :
  exists body,
    outcome (youtube_callback (healthy_env 1000) ∅
               (State (session_awaiting_callback 1000) []))
      = Ok (Body body 400) /\
    contains body "Missing code or state parameter" /\
    session_after (youtube_callback (healthy_env 1000) ∅
               (State (session_awaiting_callback 1000) []))
      !! "oauth_state" = Some (VStr "abc").
Proof.
  destruct (youtube_callback_missing_parameter (healthy_env 1000) ∅
              (State (session_awaiting_callback 1000) []))
    as (body & Hout & Hbody & Hstate & _); [left; reflexivity|].
  exists body. exact (conj Hout (conj Hbody Hstate)).
Defined.

(** C7.  A video callback that carries both [code] and [state] while the
    session holds no [oauth_state] equal to the supplied [state] (none at
    all, [None], or another value) is answered with status 400 and the text
    "Error: OAuth state mismatch"; no token exchange is made and nothing is
    stored in the session. *)
Theorem youtube_callback_state_mismatch (w : Env) (args : gmap string string)
    (st : state) (code state_arg : string) :
  args !! "code" = Some code ->
  args !! "state" = Some state_arg ->
  session st !! "oauth_state" ≠ Some (VStr state_arg) ->
  exists body,
    outcome (youtube_callback w args st) = Ok (Body body 400) /\
    contains body "OAuth state mismatch" /\
    token_exchanges (trace_after (youtube_callback w args st))
      = token_exchanges (trace st) /\
    trace_after (youtube_callback w args st) = trace st /\
    session_after (youtube_callback w args st) = session st.
Proof.
  intros Hcode Hstate Hne.
  exists "Error: OAuth state mismatch".
  assert (Hrun : youtube_callback w args st =
                 (Ok (Body "Error: OAuth state mismatch" 400), st)).
  { unfold youtube_callback. rewrite Hcode, Hstate. unfold_monad.
    destruct (session st !! "oauth_state") as [v|] eqn:Hstored; cbn; [|done].
    destruct v; cbn; try done; rewrite Hstored; cbn; try done.
    rewrite bool_decide_eq_false_2; [done|congruence]. }
  rewrite Hrun. repeat split.
  by exists "Error: ", "".
Qed.

Lemma youtube_callback_state_mismatch_witness :
  exists body,
    outcome (youtube_callback (healthy_env 1000)
               {["code" := "4/0AX4"; "state" := "xyz"]}
               (State (session_awaiting_callback 1000) []))
      = Ok (Body body 400) /\
    contains body "OAuth state mismatch" /\
    trace_after (youtube_callback (healthy_env 1000)
               {["code" := "4/0AX4"; "state" := "xyz"]}
               (State (session_awaiting_callback 1000) []))
      = [].
Proof.
  destruct (youtube_callback_state_mismatch (healthy_env 1000)
              {["code" := "4/0AX4"; "state" := "xyz"]}
              (State (session_awaiting_callback 1000) [])
              "4/0AX4" "xyz")
    as (body & Hout & Hbody & _ & Htrace & _);
    [reflexivity | reflexivity | vm_compute; congruence |].
  exists body. exact (conj Hout (conj Hbody Htrace)).
Defined.

(** C8.  A discussion callback without [code] is answered with status 400
    before any exchange is attempted.  With [code] present, if
    [reddit.auth.authorize(code)] raises [e], the answer is status 400 with
    the text "Reddit login failed: " followed by [str(e)]; the exchange was
    attempted once and nothing was stored. *)
Theorem reddit_callback_failures (w : Env) (args : gmap string string)
    (st : state) :
  (args !! "code" = None ->
   exists body,
     outcome (reddit_callback w args st) = Ok (Body body 400) /\
     token_exchanges (trace_after (reddit_callback w args st))
       = token_exchanges (trace st) /\
     trace_after (reddit_callback w args st) = trace st /\
     session_after (reddit_callback w args st) = session st) /\
  (forall code reddit e,
     args !! "code" = Some code ->
     praw_Reddit w REDDIT_REDIRECT_URI = Ok reddit ->
     auth_authorize w reddit code = Raise e ->
     outcome (reddit_callback w args st)
       = Ok (Body ("Reddit login failed: " +:+ str_exn w e) 400) /\
     contains ("Reddit login failed: " +:+ str_exn w e) "Reddit login failed:" /\
     trace_after (reddit_callback w args st) = trace st ++ [ReqAuthorize code] /\
     session_after (reddit_callback w args st) = session st).
Proof.
  split.
  - intros Hcode. exists "Error: Missing code parameter".
    unfold reddit_callback. rewrite Hcode. done.
  - intros code reddit e Hcode Hreddit Hraise.
    unfold reddit_callback. rewrite Hcode. unfold_monad.
    rewrite Hreddit. cbn. rewrite Hraise. cbn.
    repeat split.
    by exists "", (" " +:+ str_exn w e).
Qed.

Lemma reddit_callback_failures_witness :
  (exists body,
     outcome (reddit_callback (transport_failure_env 1000) ∅ new_client)
       = Ok (Body body 400)) /\
  outcome (reddit_callback (transport_failure_env 1000)
             {["code" := "Hq3x"]} new_client)
    = Ok (Body "Reddit login failed: invalid_grant error processing request"
            400).
Proof.
  destruct (reddit_callback_failures (transport_failure_env 1000) ∅ new_client)
    as [Hmissing _].
  destruct (Hmissing eq_refl) as (body & Hbody & _).
  destruct (reddit_callback_failures (transport_failure_env 1000)
              {["code" := "Hq3x"]} new_client)
    as [_ Hexchange].
  destruct (Hexchange "Hq3x" (VObj "Reddit" [("user", VObj "User" [])])
              (OtherError "prawcore.exceptions.OAuthException"
                 "invalid_grant error processing request")
              eq_refl eq_refl eq_refl)
    as (Hout & _).
  split; [exists body; exact Hbody | exact Hout].
Defined.

(** ** Logout *)

(** *** No handler ever sets [reddit_access_token]

    [init_session] creates the key with [None]; nothing else writes it.  The
    rules below follow the structure of the handlers. *)

Lemma keeps_ret {A} (a : A) : keeps_token_unset (mret a : M A).
Proof. by intros st. Qed.

Lemma keeps_lift {A} (r : result A) : keeps_token_unset (lift r).
Proof. by intros st. Qed.

Lemma keeps_emit (ev : event) : keeps_token_unset (emit ev).
Proof. by intros st. Qed.

Lemma keeps_session_getitem (k : string) :
  keeps_token_unset (session_getitem k).
Proof. intros st. unfold session_getitem. by destruct (session st !! k). Qed.

Lemma keeps_session_get (k : string) : keeps_token_unset (session_get k).
Proof. by intros st. Qed.

Lemma keeps_session_contains (k : string) :
  keeps_token_unset (session_contains k).
Proof. by intros st. Qed.

Lemma keeps_session_setitem (k : string) (v : value) :
  k ≠ "reddit_access_token" \/ v = VNone ->
  keeps_token_unset (session_setitem k v).
Proof.
  intros Hkv st. unfold session_setitem, get. cbn.
  destruct (decide (k = "reddit_access_token")) as [->|Hne].
  - destruct Hkv as [?| ->]; [done|]. by rewrite lookup_insert_eq.
  - by rewrite lookup_insert_ne.
Qed.

Lemma keeps_bind {A B} (m : M A) (k : A -> M B) :
  keeps_token_unset m -> (forall a, keeps_token_unset (k a)) ->
  keeps_token_unset (m ≫= k).
Proof.
  intros Hm Hk st Hst. unfold mbind, M_bind.
  specialize (Hm st Hst). destruct (m st) as [[a|e] st']; [|done].
  by apply Hk.
Qed.

Lemma keeps_try_except {A} (body : M A) catches (handler : exn -> M A) :
  keeps_token_unset body -> (forall e, keeps_token_unset (handler e)) ->
  keeps_token_unset (try_except body catches handler).
Proof.
  intros Hb Hh st Hst. unfold try_except.
  specialize (Hb st Hst). destruct (body st) as [[a|e] st']; [done|].
  destruct (catches e); [by apply Hh|done].
Qed.

Lemma keeps_try_finally {A} (body : M A) (cleanup : M unit) :
  keeps_token_unset body -> keeps_token_unset cleanup ->
  keeps_token_unset (try_finally body cleanup).
Proof.
  intros Hb Hc st Hst. unfold try_finally.
  specialize (Hb st Hst). destruct (body st) as [r st'].
  specialize (Hc st' Hb). by destruct (cleanup st') as [[[]|e] st''].
Qed.

Lemma keeps_fetch_youtube (w : Env) (h : value) :
  keeps_token_unset (fetch_youtube_saved_videos w h).
Proof. intros st Hst. by rewrite fetch_youtube_saved_videos_eq. Qed.

Lemma keeps_fetch_reddit (w : Env) (h : value) :
  keeps_token_unset (fetch_reddit_saved_posts w h).
Proof. intros st Hst. by rewrite fetch_reddit_saved_posts_eq. Qed.

Ltac keeps_step :=
  first
    [ apply keeps_ret | apply keeps_lift | apply keeps_emit
    | apply keeps_session_getitem | apply keeps_session_get
    | apply keeps_session_contains
    | apply keeps_fetch_youtube | apply keeps_fetch_reddit
    | apply keeps_session_setitem; (by left) || (by right)
    | apply keeps_try_except; [|intros ?]
    | apply keeps_try_finally
    | apply keeps_bind; [|intros ?]
    | match goal with
      | |- keeps_token_unset (if ?b then _ else _) => destruct b
      | |- keeps_token_unset (match ?x with _ => _ end) => destruct x
      end ].

Ltac keeps := repeat keeps_step.

Lemma keeps_init_session : keeps_token_unset init_session.
Proof. unfold init_session, init_key. keeps. Qed.

Lemma keeps_sync_content (w : Env) : keeps_token_unset (sync_content w).
Proof. unfold sync_content. keeps. Qed.

Lemma keeps_serve (w : Env) (req : request) :
  keeps_token_unset (serve w req).
Proof.
  destruct req; cbn [serve];
    unfold index, login, youtube_login, reddit_login, youtube_callback,
      reddit_callback, logout_youtube, logout_reddit, sync,
      create_temp_client_secret_file, unlink, get_youtube_api;
    keeps; first [apply keeps_init_session | apply keeps_sync_content].
Qed.

(** In every session the application can reach, [reddit_access_token] is
    absent or [None]. *)
Lemma reachable_token_unset (s : gmap string value) :
  reachable s -> get s "reddit_access_token" = VNone.
Proof.
  induction 1 as [|s w req tr Hs IH]; [done|].
  by apply (keeps_serve w req (State s tr)).
Qed.

(** The sample session is among the reachable ones: the handlers build it
    from the empty session. *)
Lemma reachable_logged_in_session : reachable (logged_in_session 1100).
Proof.
  pose (visit := fun (w : Env) (req : request) (s : gmap string value) =>
                   session_after (serve w req (State s []))).
  assert (Hvisits :
    logged_in_session 1100 =
    visit (healthy_env 1100) GetIndex
      (visit (healthy_env 1000) (GetRedditCallback {["code" := "Hq3x"]})
         (visit (healthy_env 1000)
            (GetYoutubeCallback {["code" := "4/0AX4"; "state" := "abc"]})
            (visit (healthy_env 1000) GetYoutubeLogin
               (visit (healthy_env 1000) GetIndex no_session)))))
    by (vm_compute; reflexivity).
  rewrite Hvisits. unfold visit.
  repeat apply reachable_step. apply reachable_new.
Qed.

(** C2.  Logging out of the video provider sets [youtube_credentials] and
    [youtube_api] to [None] and [youtube_videos] to the empty list, and
    leaves every other key of the session, so every field of the discussion
    provider, exactly as it was; logging out of the discussion provider
    sets [reddit] (the stored client, which is the credential the landing
    route checks) to [None] and [reddit_posts] to the empty list, and leaves
    every other key, so every field of the video provider, as it was.  The
    key [reddit_access_token] is never given a value by any handler, so it
    is unset after the logout as well. *)
Theorem logout_clears_one_provider (st : state) :
  (outcome (logout_youtube st) = Ok (Redirect "/") /\
   session_after (logout_youtube st) !! "youtube_credentials" = Some VNone /\
   session_after (logout_youtube st) !! "youtube_api" = Some VNone /\
   session_after (logout_youtube st) !! "youtube_videos" = Some (VList []) /\
   (forall k,
      k ≠ "youtube_credentials" -> k ≠ "youtube_api" ->
      k ≠ "youtube_videos" ->
      session_after (logout_youtube st) !! k = session st !! k) /\
   trace_after (logout_youtube st) = trace st) /\
  (outcome (logout_reddit st) = Ok (Redirect "/") /\
   session_after (logout_reddit st) !! "reddit" = Some VNone /\
   session_after (logout_reddit st) !! "reddit_posts" = Some (VList []) /\
   (forall k,
      k ≠ "reddit" -> k ≠ "reddit_posts" ->
      session_after (logout_reddit st) !! k = session st !! k) /\
   trace_after (logout_reddit st) = trace st /\
   (reachable (session st) ->
    get (session_after (logout_reddit st)) "reddit_access_token" = VNone)).
Proof.
  split.
  - unfold logout_youtube. unfold_monad.
    change (url_for "index") with (Ok "/" : result string).
    cbn [outcome session_after trace_after fst snd session trace].
    split; [reflexivity|].
    repeat split; try (intros; by simplify_map_eq).
  - unfold logout_reddit. unfold_monad.
    change (url_for "index") with (Ok "/" : result string).
    cbn [outcome session_after trace_after fst snd session trace].
    split; [reflexivity|].
    repeat split; try (intros; by simplify_map_eq).
    intros Hreach. unfold get. rewrite !lookup_insert_ne by done.
    by apply reachable_token_unset.
Qed.

Lemma logout_clears_one_provider_witness :
  session_after (logout_youtube (State (logged_in_session 1100) []))
    !! "reddit" = Some reddit_handle /\
  session_after (logout_youtube (State (logged_in_session 1100) []))
    !! "youtube_api" = Some VNone /\
  session_after (logout_reddit (State (logged_in_session 1100) []))
    !! "youtube_api" = Some youtube_handle /\
  session_after (logout_reddit (State (logged_in_session 1100) []))
    !! "reddit" = Some VNone /\
  get (session_after (logout_reddit (State (logged_in_session 1100) [])))
    "reddit_access_token" = VNone.
Proof.
  destruct (logout_clears_one_provider (State (logged_in_session 1100) []))
    as ((_ & _ & Hapi & _ & Hframe_youtube & _)
        & (_ & Hreddit & _ & Hframe_reddit & _ & Htoken)).
  assert (Hreach : reachable (session (State (logged_in_session 1100) [])))
    by apply reachable_logged_in_session.
  pose proof (Hframe_youtube "reddit" ltac:(done) ltac:(done) ltac:(done))
    as Hkept_reddit.
  pose proof (Hframe_reddit "youtube_api" ltac:(done) ltac:(done))
    as Hkept_youtube.
  refine (conj _ (conj Hapi (conj _ (conj Hreddit (Htoken Hreach))))).
  - rewrite Hkept_reddit. vm_compute. reflexivity.
  - rewrite Hkept_youtube. vm_compute. reflexivity.
Defined.

(** ** Further properties of the handlers *)

(** *** Rules for relations between the state before and after *)

Section Relates.

Context (R : state -> state -> Prop).
Context (R_refl : forall st, R st st).
Context (R_trans : forall a b c, R a b -> R b c -> R a c).
Context (R_emit : forall st ev, R st (State (session st) (trace st ++ [ev]))).
Context (R_init : forall st, R st (State (initialised (session st)) (trace st))).

Lemma relates_ret {A} (a : A) : relates R (mret a : M A).
Proof. intros st. apply R_refl. Qed.

Lemma relates_lift {A} (r : result A) : relates R (lift r).
Proof. intros st. apply R_refl. Qed.

Lemma relates_emit (ev : event) : relates R (emit ev).
Proof. intros st. apply R_emit. Qed.

Lemma relates_session_getitem (k : string) : relates R (session_getitem k).
Proof.
  intros st. unfold session_getitem. destruct (session st !! k); apply R_refl.
Qed.

Lemma relates_session_get (k : string) : relates R (session_get k).
Proof. intros st. apply R_refl. Qed.

Lemma relates_session_contains (k : string) : relates R (session_contains k).
Proof. intros st. apply R_refl. Qed.

Lemma relates_session_setitem (k : string) (v : value) :
  (forall st, R st (State (<[k := v]> (session st)) (trace st))) ->
  relates R (session_setitem k v).
Proof. intros H st. apply H. Qed.

Lemma relates_bind {A B} (m : M A) (k : A -> M B) :
  relates R m -> (forall a, relates R (k a)) -> relates R (m ≫= k).
Proof.
  intros Hm Hk st. unfold mbind, M_bind.
  specialize (Hm st). destruct (m st) as [[a|e] st']; [|done].
  eapply R_trans; [exact Hm|apply Hk].
Qed.

(** The value a raising expression hands on is the one it evaluated to. *)
Lemma relates_bind_lift {A B} (r : result A) (k : A -> M B) :
  (forall a, r = Ok a -> relates R (k a)) -> relates R (lift r ≫= k).
Proof.
  intros Hk st. unfold mbind, M_bind, lift.
  destruct r as [a|e]; [by apply Hk|apply R_refl].
Qed.

Lemma relates_try_except {A} (body : M A) catches (handler : exn -> M A) :
  relates R body -> (forall e, relates R (handler e)) ->
  relates R (try_except body catches handler).
Proof.
  intros Hb Hh st. unfold try_except.
  specialize (Hb st). destruct (body st) as [[a|e] st']; [done|].
  destruct (catches e); [|done].
  eapply R_trans; [exact Hb|apply Hh].
Qed.

Lemma relates_try_finally {A} (body : M A) (cleanup : M unit) :
  relates R body -> relates R cleanup ->
  relates R (try_finally body cleanup).
Proof.
  intros Hb Hc st. unfold try_finally.
  specialize (Hb st). destruct (body st) as [r st'].
  specialize (Hc st'). destruct (cleanup st') as [[[]|e] st''];
    eapply R_trans; eassumption.
Qed.

Lemma relates_emits (st : state) (evs : list event) :
  R st (State (session st) (trace st ++ evs)).
Proof.
  revert st. induction evs as [|ev evs IH]; intros st.
  - rewrite app_nil_r. destruct st; apply R_refl.
  - eapply R_trans; [apply (R_emit st ev)|].
    specialize (IH (State (session st) (trace st ++ [ev]))).
    cbn in IH. by rewrite <- app_assoc in IH.
Qed.

Lemma relates_fetch_youtube (w : Env) (h : value) :
  relates R (fetch_youtube_saved_videos w h).
Proof.
  intros st. rewrite fetch_youtube_saved_videos_eq. apply relates_emits.
Qed.

Lemma relates_fetch_reddit (w : Env) (h : value) :
  relates R (fetch_reddit_saved_posts w h).
Proof.
  intros st. rewrite fetch_reddit_saved_posts_eq. apply relates_emits.
Qed.

Lemma relates_init_session : relates R init_session.
Proof. intros st. rewrite init_session_eq. apply R_init. Qed.

End Relates.

(** One step of a proof that a handler keeps a relation: [refl], [trans],
    [emit] and [init] are the four facts about the relation, [side] proves
    what an assignment to the session needs, [known] closes the calls of
    functions already dealt with. *)
Ltac relates_step refl trans emit init side known :=
  first
    [ known
    | apply (relates_ret _ refl) | apply (relates_lift _ refl)
    | apply (relates_emit _ emit)
    | apply (relates_session_getitem _ refl)
    | apply (relates_session_get _ refl)
    | apply (relates_session_contains _ refl)
    | apply (relates_fetch_youtube _ refl trans emit)
    | apply (relates_fetch_reddit _ refl trans emit)
    | apply (relates_init_session _ init)
    | apply relates_session_setitem; side
    | apply (relates_try_except _ trans); [|intros ?]
    | apply (relates_try_finally _ trans)
    | apply (relates_bind_lift _ refl); intros ? ?
    | apply (relates_bind _ trans); [|intros ?]
    | match goal with
      | |- relates _ (if ?b then _ else _) => destruct b
      | |- relates _ (match ?x with _ => _ end) => destruct x
      end ].

(** [k ∉ K] for a key and a list that are both given. *)
Ltac not_listed :=
  let Hin := fresh in
  intros Hin; apply (bool_decide_pack _) in Hin; vm_compute in Hin; exact Hin.

Ltac unfold_handlers :=
  unfold index, login, youtube_login, reddit_login, youtube_callback,
    reddit_callback, logout_youtube, logout_reddit, sync,
    create_temp_client_secret_file, unlink, get_youtube_api.

(** *** Which keys a handler may overwrite *)

Lemma keeps_bindings_refl K st : keeps_bindings K st st.
Proof. by intros k v. Qed.

Lemma keeps_bindings_trans K a b c :
  keeps_bindings K a b -> keeps_bindings K b c -> keeps_bindings K a c.
Proof. intros Hab Hbc k v Hk Hv. by apply Hbc, Hab. Qed.

Lemma keeps_bindings_emit K st ev :
  keeps_bindings K st (State (session st) (trace st ++ [ev])).
Proof. by intros k v. Qed.

Lemma setdefault_keeps k0 v0 (s : gmap string value) k v :
  s !! k = Some v -> setdefault k0 v0 s !! k = Some v.
Proof.
  intros Hv. unfold setdefault. destruct (s !! k0) eqn:E; [done|].
  rewrite lookup_insert_ne; [done|congruence].
Qed.

Lemma initialised_keeps (s : gmap string value) k v :
  s !! k = Some v -> initialised s !! k = Some v.
Proof. intros Hv. unfold initialised. by repeat apply setdefault_keeps. Qed.

Lemma keeps_bindings_init K st :
  keeps_bindings K st (State (initialised (session st)) (trace st)).
Proof. intros k v _. apply initialised_keeps. Qed.

Lemma keeps_bindings_insert K k v st :
  k ∈ K -> keeps_bindings K st (State (<[k := v]> (session st)) (trace st)).
Proof.
  intros Hk k' v' Hk' Hv'. cbn. rewrite lookup_insert_ne; [done|].
  intros ->. contradiction.
Qed.

Lemma keeps_bindings_mono K K' st st' :
  K ⊆ K' -> keeps_bindings K st st' -> keeps_bindings K' st st'.
Proof. intros Hsub H k v Hk. apply H. intros Hin. apply Hk, Hsub, Hin. Qed.

Ltac keeps_bindings_tac K known :=
  repeat relates_step (keeps_bindings_refl K) (keeps_bindings_trans K)
    (keeps_bindings_emit K) (keeps_bindings_init K)
    ltac:(intros ?; apply keeps_bindings_insert;
          first [assumption | repeat constructor]) known.

Lemma sync_content_keeps_bindings (w : Env) K :
  "youtube_videos" ∈ K -> "reddit_posts" ∈ K -> "last_sync_time" ∈ K ->
  relates (keeps_bindings K) (sync_content w).
Proof.
  intros Hv Hp Ht. unfold sync_content.
  keeps_bindings_tac K fail.
Qed.

Lemma serve_keeps_bindings (w : Env) (req : request) :
  relates (keeps_bindings (may_overwrite req)) (serve w req).
Proof.
  destruct req; cbn [serve may_overwrite]; unfold_handlers;
    match goal with
    | |- relates (keeps_bindings ?K) _ =>
        keeps_bindings_tac K
          ltac:(apply sync_content_keeps_bindings; repeat constructor)
    end.
Qed.

(** X1.  A request replaces the value of no key outside its own short
    list: the landing route and [/sync] only the two cached lists and the
    timestamp, the callbacks these and their own provider's credential and
    handle, the logouts their provider's fields, [/youtube-login] the
    anti-forgery state and the flow; [/login] and [/reddit-login] replace
    nothing.  Whether the handler returns or raises, every other binding of
    the session is still there. *)
Theorem serve_overwrites_only (w : Env) (req : request) (st : state)
    (k : string) (v : value) :
  k ∉ may_overwrite req ->
  session st !! k = Some v ->
  session_after (serve w req st) !! k = Some v.
Proof. intros Hk Hv. by apply (serve_keeps_bindings w req st). Qed.

Lemma serve_overwrites_only_witness :
  session_after
    (serve (healthy_env 1200)
       (GetYoutubeCallback {["code" := "4/0AX4"; "state" := "abc"]})
       (State (logged_in_session 1100) []))
    !! "oauth_state" = Some (VStr "abc") /\
  session_after
    (serve (missing_thumbnail_env 1200) GetSync
       (State (logged_in_session 1100) []))
    !! "sync_interval" = Some (VNum 60).
Proof.
  split.
  - apply serve_overwrites_only;
      [not_listed | vm_compute; reflexivity].
  - apply serve_overwrites_only;
      [not_listed | vm_compute; reflexivity].
Defined.

(** *** [init_session] *)

Lemma lookup_setdefault k0 v0 (s : gmap string value) k :
  setdefault k0 v0 s !! k =
  if decide (k = k0) then Some (default v0 (s !! k0)) else s !! k.
Proof.
  unfold setdefault. destruct (s !! k0) eqn:E; case_decide; subst; cbn.
  - done.
  - done.
  - by rewrite lookup_insert_eq.
  - by rewrite lookup_insert_ne.
Qed.

(** The same for a whole table of defaults, applied from the first row
    on. *)
Lemma lookup_setdefaults (ds : list (string * value))
    (s : gmap string value) (k : string) :
  fold_left (fun s kd => setdefault (fst kd) (snd kd) s) ds s !! k =
  match assoc k ds with
  | Some d => Some (default d (s !! k))
  | None => s !! k
  end.
Proof.
  revert s. induction ds as [|[k0 d0] ds IH]; intros s; [done|].
  cbn [fold_left assoc fst snd]. rewrite IH, lookup_setdefault.
  case_decide as Hk.
  - subst k0. by destruct (assoc k ds).
  - done.
Qed.

(** The session after [init_session], key by key. *)
Lemma lookup_initialised (s : gmap string value) (k : string) :
  initialised s !! k =
  match assoc k session_defaults with
  | Some d => Some (default d (s !! k))
  | None => s !! k
  end.
Proof. apply (lookup_setdefaults session_defaults). Qed.

(** X2.  [init_session] never raises and calls nothing.  Afterwards each of
    its ten keys is present, with the value it had or, if it was absent,
    with its default; every other key is as before; and running it again
    changes nothing. *)
Theorem init_session_completes (st : state) :
  outcome (init_session st) = Ok tt /\
  trace_after (init_session st) = trace st /\
  (forall k d,
     assoc k session_defaults = Some d ->
     session_after (init_session st) !! k
       = Some (default d (session st !! k))) /\
  (forall k,
     assoc k session_defaults = None ->
     session_after (init_session st) !! k = session st !! k) /\
  init_session (snd (init_session st)) = init_session st.
Proof.
  rewrite !init_session_eq.
  cbn [outcome session_after trace_after fst snd session trace].
  repeat split.
  - intros k d Hd. by rewrite lookup_initialised, Hd.
  - intros k Hd. by rewrite lookup_initialised, Hd.
  - f_equal. f_equal. apply map_eq. intros k.
    rewrite !lookup_initialised.
    destruct (assoc k session_defaults); [|done].
    by destruct (session st !! k).
Qed.

Lemma init_session_completes_witness :
  session_after (init_session (State {["sync_interval" := VNum 5]} []))
    !! "sync_interval" = Some (VNum 5) /\
  session_after (init_session (State {["sync_interval" := VNum 5]} []))
    !! "last_sync_time" = Some (VNum 0) /\
  session_after (init_session (State {["sync_interval" := VNum 5]} []))
    !! "theme" = None.
Proof.
  destruct (init_session_completes (State {["sync_interval" := VNum 5]} []))
    as (_ & _ & Hdefault & Hother & _).
  exact (conj (Hdefault "sync_interval" (VNum 60) eq_refl)
           (conj (Hdefault "last_sync_time" (VNum 0) eq_refl)
              (Hother "theme" eq_refl))).
Defined.

(** *** No key is ever removed *)

Lemma keys_grow_refl st : keys_grow st st.
Proof. by intros k. Qed.

Lemma keys_grow_trans a b c : keys_grow a b -> keys_grow b c -> keys_grow a c.
Proof. intros Hab Hbc k Hk. by apply Hbc, Hab. Qed.

Lemma keys_grow_emit st ev :
  keys_grow st (State (session st) (trace st ++ [ev])).
Proof. by intros k. Qed.

Lemma keys_grow_init st :
  keys_grow st (State (initialised (session st)) (trace st)).
Proof. intros k [v Hv]. exists v. by apply initialised_keeps. Qed.

Lemma keys_grow_insert k v st :
  keys_grow st (State (<[k := v]> (session st)) (trace st)).
Proof.
  intros k' Hk'. cbn. rewrite lookup_insert_is_Some.
  destruct (decide (k = k')); [by left|by right].
Qed.

Lemma sync_content_keys_grow (w : Env) : relates keys_grow (sync_content w).
Proof.
  unfold sync_content.
  repeat relates_step keys_grow_refl keys_grow_trans keys_grow_emit
    keys_grow_init ltac:(intros ?; apply keys_grow_insert) fail.
Qed.

Lemma serve_keys_grow (w : Env) (req : request) :
  relates keys_grow (serve w req).
Proof.
  destruct req; cbn [serve]; unfold_handlers;
    repeat relates_step keys_grow_refl keys_grow_trans keys_grow_emit
      keys_grow_init ltac:(intros ?; apply keys_grow_insert)
      ltac:(apply sync_content_keys_grow).
Qed.

(** X3.  No handler removes a key from the session, whether it returns or
    raises: the logouts store [None] and the empty list in place of what
    they clear, and nothing else in the program deletes. *)
Theorem serve_never_removes_a_key (w : Env) (req : request) (st : state)
    (k : string) :
  is_Some (session st !! k) ->
  is_Some (session_after (serve w req st) !! k).
Proof. apply (serve_keys_grow w req st). Qed.

Lemma serve_never_removes_a_key_witness :
  is_Some (session_after
             (serve (healthy_env 1200) GetLogoutYoutube
                (State (logged_in_session 1100) []))
           !! "youtube_credentials").
Proof.
  apply serve_never_removes_a_key. vm_compute. eexists. reflexivity.
Defined.

(** *** The shape of the session *)

Lemma stays_well_formed_refl st : stays_well_formed st st.
Proof. by intros H. Qed.

Lemma stays_well_formed_trans a b c :
  stays_well_formed a b -> stays_well_formed b c -> stays_well_formed a c.
Proof. intros Hab Hbc H. by apply Hbc, Hab. Qed.

Lemma stays_well_formed_emit st ev :
  stays_well_formed st (State (session st) (trace st ++ [ev])).
Proof. by intros H. Qed.

Lemma well_formed_insert (s : gmap string value) k v :
  field_ok k v -> well_formed s -> well_formed (<[k := v]> s).
Proof.
  intros Hv Hs k' v'. rewrite lookup_insert. case_decide.
  - intros [= <-]. by subst.
  - apply Hs.
Qed.

Ltac field_ok_tac :=
  unfold field_ok; repeat split; intros; try discriminate; eauto.

Lemma well_formed_setdefault (s : gmap string value) k d :
  field_ok k d -> well_formed s -> well_formed (setdefault k d s).
Proof.
  intros Hd Hs. unfold setdefault. destruct (s !! k); [done|].
  by apply well_formed_insert.
Qed.

Lemma stays_well_formed_init st :
  stays_well_formed st (State (initialised (session st)) (trace st)).
Proof.
  intros H. cbn. unfold initialised.
  repeat (apply well_formed_setdefault; [field_ok_tac|]). exact H.
Qed.

Lemma stays_well_formed_insert k v st :
  field_ok k v ->
  stays_well_formed st (State (<[k := v]> (session st)) (trace st)).
Proof. intros Hv H. by apply well_formed_insert. Qed.

Ltac well_formed_side :=
  intros ?; apply stays_well_formed_insert;
  repeat match goal with
         | H : py_dict ?x = Ok _ |- _ => destruct x; cbn in H; simplify_eq
         end;
  field_ok_tac.

Ltac well_formed_tac known :=
  repeat relates_step stays_well_formed_refl stays_well_formed_trans
    stays_well_formed_emit stays_well_formed_init well_formed_side known.

(** The video fetcher hands back a list, if anything. *)
Lemma fetched_videos_list (w : Env) (h v : value) :
  fetched_videos w h = Ok v -> exists videos, v = VList videos.
Proof.
  unfold fetched_videos. destruct (videos_of w h) as [videos|e].
  - intros [= <-]. eauto.
  - destruct (is_HttpError e); [|done]. intros [= <-]. eauto.
Qed.

Lemma refresh_youtube_well_formed (w : Env) :
  relates stays_well_formed
    (refresh "youtube_api" "youtube_videos" (fetch_youtube_saved_videos w)).
Proof.
  intros st Hst.
  destruct (active_handle_cases (session st) "youtube_api")
    as [Hy|(h & Hy & _)].
  - by rewrite (refresh_inactive _ _ _ _ Hy).
  - rewrite (refresh_active _ _ _ _ _ Hy), fetch_youtube_saved_videos_eq.
    destruct (fetched_videos w h) as [v|e] eqn:Hv; [|done].
    apply fetched_videos_list in Hv as [videos ->].
    cbn. apply well_formed_insert; [field_ok_tac|done].
Qed.

Lemma refresh_reddit_well_formed (w : Env) :
  relates stays_well_formed
    (refresh "reddit" "reddit_posts" (fetch_reddit_saved_posts w)).
Proof.
  intros st Hst.
  destruct (active_handle_cases (session st) "reddit")
    as [Hr|(h & Hr & Hh & Htrue)].
  - by rewrite (refresh_inactive _ _ _ _ Hr).
  - rewrite (refresh_active _ _ _ _ _ Hr), fetch_reddit_saved_posts_eq.
    cbn. apply well_formed_insert; [|done].
    destruct (Hst _ _ Hh) as (_ & _ & _ & _ & Hshape & _).
    destruct (Hshape eq_refl) as [->|[attrs ->]]; [done|].
    field_ok_tac.
Qed.

Lemma sync_content_well_formed (w : Env) :
  relates stays_well_formed (sync_content w).
Proof.
  rewrite sync_content_phases. cbv zeta.
  well_formed_tac
    ltac:(first [apply refresh_youtube_well_formed
                | apply refresh_reddit_well_formed]).
Qed.

Lemma serve_well_formed (w : Env) (req : request) :
  relates stays_well_formed (serve w req).
Proof.
  destruct req; cbn [serve]; unfold_handlers;
    well_formed_tac ltac:(apply sync_content_well_formed).
Qed.

Lemma reachable_well_formed (s : gmap string value) :
  reachable s -> well_formed s.
Proof.
  induction 1 as [|s w req tr Hs IH]; [by intros k v|].
  by apply (serve_well_formed w req (State s tr)).
Qed.

(** X4.  In every session the application can reach, each key it uses holds
    a value of one fixed shape: [sync_interval] is 60, [last_sync_time] a
    number, [youtube_credentials] and [oauth_state] [None] or a string,
    [youtube_videos] a list, [reddit] and [oauth_flow] [None] or a
    dictionary, [reddit_posts] the empty list, [reddit_access_token]
    [None]. *)
Theorem reachable_session_shape (s : gmap string value) (k : string)
    (v : value) :
  reachable s -> s !! k = Some v -> field_ok k v.
Proof. intros Hs. by apply reachable_well_formed. Qed.


Lemma reachable_session_shape_witness :
  field_ok "sync_interval" (VNum 60).
Proof.
  apply (reachable_session_shape (logged_in_session 1100));
    [apply reachable_logged_in_session | vm_compute; reflexivity].
Defined.

(** X5.  The discussion panel is always empty.  [reddit_callback] stores
    the client's [__dict__], a dictionary, as the handle; handed that, the
    fetcher finds no attribute [user], sends nothing to the provider and
    returns the empty list.  So in every reachable session [reddit_posts] is
    empty, and a fetch with the stored handle makes no request. *)
Theorem reddit_panel_always_empty (s : gmap string value) :
  reachable s ->
  (forall posts, s !! "reddit_posts" = Some posts -> posts = VList []) /\
  (forall h w st,
     active_handle s "reddit" = [h] ->
     fetch_reddit_saved_posts w h st =
     (Ok (VList []),
      State (session st) (trace st ++ [CallFetchReddit h]))).
Proof.
  intros Hs. apply reachable_well_formed in Hs. split.
  - intros posts Hposts.
    destruct (Hs _ _ Hposts) as (_ & _ & _ & _ & _ & Hshape & _).
    by apply Hshape.
  - intros h w st Hactive.
    destruct (active_handle_cases s "reddit")
      as [Hnone|(h' & Hh' & Hlookup & Htrue)]; [congruence|].
    assert (h' = h) as -> by congruence.
    destruct (Hs _ _ Hlookup) as (_ & _ & _ & _ & Hshape & _).
    destruct (Hshape eq_refl) as [->|[attrs ->]]; [done|].
    apply fetch_reddit_on_stored_dict.
Qed.


Lemma reddit_panel_always_empty_witness :
  logged_in_session 1100 !! "reddit_posts" = Some (VList []) /\
  active_handle (logged_in_session 1100) "reddit" = [reddit_handle] /\
  fetch_reddit_saved_posts (healthy_env 1200) reddit_handle new_client =
  (Ok (VList []),
   State (session new_client)
     (trace new_client ++ [CallFetchReddit reddit_handle])).
Proof.
  destruct (reddit_panel_always_empty _ (reachable_logged_in_session))
    as [_ Hfetch].
  assert (Hactive : active_handle (logged_in_session 1100) "reddit"
                    = [reddit_handle]) by (vm_compute; reflexivity).
  split; [vm_compute; reflexivity|].
  split; [exact Hactive|].
  exact (Hfetch reddit_handle (healthy_env 1200) new_client Hactive).
Defined.

(** *** The landing route, on reachable sessions *)

(** With numeric gate fields, [sync_content] returns unless the video fetcher
    raises. *)
Lemma sync_content_returns (w : Env) (st : state) (lv iv_v : value)
    (l iv : Z) :
  session st !! "last_sync_time" = Some lv -> as_number lv = Some l ->
  session st !! "sync_interval" = Some iv_v -> as_number iv_v = Some iv ->
  (forall h, active_handle (session st) "youtube_api" = [h] ->
             exists videos, fetched_videos w h = Ok videos) ->
  exists st', sync_content w st = (Ok tt, st').
Proof.
  intros Hl Hln Hi Hin Hret.
  destruct (Z_le_gt_dec iv (time_time w - l)) as [Hstale|Hfresh].
  - rewrite (sync_content_stale _ _ _ _ _ _ Hl Hln Hi Hin Hstale Hret). eauto.
  - rewrite (sync_content_gate _ _ _ _ _ _ Hl Hln Hi Hin).
    assert ((iv <=? time_time w - l) = false) as -> by lia. eauto.
Qed.


(** What [index] answers on a reachable session when the video fetcher
    returns. *)
Lemma index_on_reachable (w : Env) (st : state) :
  reachable (session st) ->
  (forall h, active_handle (initialised (session st)) "youtube_api" = [h] ->
             exists videos, fetched_videos w h = Ok videos) ->
  exists response,
    outcome (index w st) = Ok response /\
    (truthy (get (session st) "youtube_credentials") = false ->
     truthy (get (session st) "reddit") = false ->
     response = Redirect "/login") /\
    (truthy (get (session st) "youtube_credentials") = true \/
     truthy (get (session st) "reddit") = true ->
     exists videos posts shown,
       response = Template "content.html"
                    [("youtube_videos", videos);
                     ("reddit_posts", posts);
                     ("last_sync_time", VStr shown)] /\
       session_after (index w st) !! "youtube_videos" = Some videos /\
       session_after (index w st) !! "reddit_posts" = Some posts).
Proof.
  intros Hreach Hret.
  set (s1 := initialised (session st)) in *.
  assert (Hwf : well_formed s1).
  { apply (stays_well_formed_init st). by apply reachable_well_formed. }
  assert (Hlast : s1 !! "last_sync_time"
                  = Some (default (VNum 0) (session st !! "last_sync_time")))
    by apply lookup_initialised.
  assert (Hint : s1 !! "sync_interval"
                 = Some (default (VNum 60) (session st !! "sync_interval")))
    by apply lookup_initialised.
  destruct (Hwf _ _ Hlast) as (_ & Hnum & _).
  destruct (Hnum eq_refl) as [t Ht]. rewrite Ht in Hlast.
  destruct (Hwf _ _ Hint) as (H60 & _).
  rewrite (H60 eq_refl) in Hint.
  destruct (sync_content_returns w (State s1 (trace st)) _ _ t 60
              Hlast eq_refl Hint eq_refl Hret) as [st' Hrun].
  rewrite index_eq. fold s1. rewrite Hrun.
  cbn [outcome session_after fst snd].
  pose proof (sync_content_keeps_bindings w
                ["youtube_videos"; "reddit_posts"; "last_sync_time"]
                ltac:(repeat constructor) ltac:(repeat constructor)
                ltac:(repeat constructor) (State s1 (trace st))) as Hkeep.
  pose proof (sync_content_keys_grow w (State s1 (trace st))) as Hgrow.
  pose proof (sync_content_well_formed w (State s1 (trace st)) Hwf) as Hwf'.
  rewrite Hrun in Hkeep, Hgrow, Hwf'. cbn [snd session] in Hkeep, Hgrow, Hwf'.
  assert (Hcred : get (session st') "youtube_credentials"
                  = get (session st) "youtube_credentials").
  { assert (H1 : s1 !! "youtube_credentials"
                 = Some (get (session st) "youtube_credentials"))
      by exact (lookup_initialised _ _).
    unfold get at 1.
    by rewrite (Hkeep "youtube_credentials" _ ltac:(not_listed) H1). }
  assert (Hreddit : get (session st') "reddit" = get (session st) "reddit").
  { assert (H1 : s1 !! "reddit" = Some (get (session st) "reddit"))
      by exact (lookup_initialised _ _).
    unfold get at 1. by rewrite (Hkeep "reddit" _ ltac:(not_listed) H1). }
  destruct (Hgrow "youtube_videos") as [videos Hvideos].
  { cbn [session]. subst s1. rewrite lookup_initialised.
    cbn [assoc session_defaults]. eauto. }
  destruct (Hgrow "reddit_posts") as [posts Hposts].
  { cbn [session]. subst s1. rewrite lookup_initialised.
    cbn [assoc session_defaults]. eauto. }
  destruct (Hgrow "last_sync_time") as [last Hlast'].
  { cbn [session]. rewrite Hlast. eauto. }
  destruct (Hwf' _ _ Hlast') as (_ & Hnum' & _).
  destruct (Hnum' eq_refl) as [t' ->].
  unfold landing_page, session_item. rewrite Hcred, Hreddit.
  rewrite Hvideos, Hposts, Hlast'.
  destruct (truthy (get (session st) "youtube_credentials")) eqn:Hc;
    destruct (truthy (get (session st) "reddit")) eqn:Hr;
    cbn [negb andb mbind result_bind mret result_ret ctime as_number];
    change (url_for "login") with (Ok "/login" : result string);
    cbn beta iota;
    (eexists; split; [reflexivity|]; split;
     [ first [done | intros; discriminate]
     | first [ intros [?|?]; discriminate
             | intros _; exists videos, posts, (time_ctime w t');
               exact (conj eq_refl (conj Hvideos Hposts)) ] ]).
Qed.

(** X6.  On a reachable session the landing route fails only through the
    video fetcher.  If that returns for the stored handle, [index] returns
    a response: the redirect to the login chooser when neither
    [youtube_credentials] nor [reddit] is set, and otherwise the content
    page with the two cached lists of the session as it is after the sync. *)
Theorem index_fails_only_through_video_fetch (w : Env) (st : state) :
  reachable (session st) ->
  (forall h, active_handle (initialised (session st)) "youtube_api" = [h] ->
             exists videos, fetched_videos w h = Ok videos) ->
  exists response,
    outcome (index w st) = Ok response /\
    (truthy (get (session st) "youtube_credentials") = false ->
     truthy (get (session st) "reddit") = false ->
     response = Redirect "/login") /\
    (truthy (get (session st) "youtube_credentials") = true \/
     truthy (get (session st) "reddit") = true ->
     exists videos posts shown,
       response = Template "content.html"
                    [("youtube_videos", videos);
                     ("reddit_posts", posts);
                     ("last_sync_time", VStr shown)] /\
       session_after (index w st) !! "youtube_videos" = Some videos /\
       session_after (index w st) !! "reddit_posts" = Some posts).
Proof. apply index_on_reachable. Qed.



Lemma index_fails_only_through_video_fetch_witness :
  exists response,
    outcome (index (healthy_env 1200) (State (logged_in_session 1100) []))
    = Ok response.
Proof.
  destruct (index_fails_only_through_video_fetch (healthy_env 1200)
              (State (logged_in_session 1100) []))
    as (response & Hout & _).
  - apply reachable_logged_in_session.
  - intros h Hh. vm_compute in Hh. injection Hh as <-.
    eexists. vm_compute. reflexivity.
  - exists response. exact Hout.
Defined.

Lemma logout_youtube_session (st : state) :
  session_after (logout_youtube st) =
  <["youtube_videos" := VList []]>
    (<["youtube_api" := VNone]>
       (<["youtube_credentials" := VNone]> (session st))).
Proof. reflexivity. Qed.

Lemma logout_reddit_session (st : state) :
  session_after (logout_reddit st) =
  <["reddit_posts" := VList []]> (<["reddit" := VNone]> (session st)).
Proof. reflexivity. Qed.

(** X7.  After the two logouts the landing route sends the client to the
    login chooser: whatever reachable session the client had, whatever the
    providers would answer. *)
Theorem index_after_logouts (w : Env) (s : gmap string value)
    (tr : list event) :
  reachable s ->
  let s1 := session_after (logout_youtube (State s tr)) in
  let s2 := session_after (logout_reddit (State s1 tr)) in
  outcome (index w (State s2 tr)) = Ok (Redirect "/login").
Proof.
  intros Hs s1 s2.
  assert (Hreach : reachable s2).
  { apply (reachable_step s1 w GetLogoutReddit tr),
      (reachable_step s w GetLogoutYoutube tr), Hs. }
  assert (Hcred : s2 !! "youtube_credentials" = Some VNone).
  { subst s1 s2. rewrite logout_reddit_session, logout_youtube_session.
    cbn [session]. by simplify_map_eq. }
  assert (Hapi : s2 !! "youtube_api" = Some VNone).
  { subst s1 s2. rewrite logout_reddit_session, logout_youtube_session.
    cbn [session]. by simplify_map_eq. }
  assert (Hreddit : s2 !! "reddit" = Some VNone).
  { subst s1 s2. rewrite logout_reddit_session, logout_youtube_session.
    cbn [session]. by simplify_map_eq. }
  destruct (index_on_reachable w (State s2 tr) Hreach)
    as (response & Hout & Hlogin & _).
  - intros h. cbn [session]. unfold active_handle.
    by rewrite (initialised_keeps _ _ _ Hapi).
  - rewrite Hout. f_equal. apply Hlogin; cbn [session]; unfold get.
    + by rewrite Hcred.
    + by rewrite Hreddit.
Qed.

Lemma index_after_logouts_witness :
  outcome
    (index (healthy_env 1200)
       (State
          (session_after
             (logout_reddit
                (State
                   (session_after
                      (logout_youtube (State (logged_in_session 1100) [])))
                   [])))
          []))
  = Ok (Redirect "/login").
Proof.
  exact (index_after_logouts (healthy_env 1200) (logged_in_session 1100) []
           (reachable_logged_in_session)).
Defined.

(** *** The gate on sessions that lack its fields *)

Lemma sync_content_without_last_sync_time (w : Env) (st : state) :
  session st !! "last_sync_time" = None ->
  sync_content w st = (Raise (KeyError "last_sync_time"), st).
Proof. intros Hl. unfold sync_content. unfold_monad. by rewrite Hl. Qed.

Lemma sync_content_without_sync_interval (w : Env) (st : state) (lv : value)
    (l : Z) :
  session st !! "last_sync_time" = Some lv -> as_number lv = Some l ->
  session st !! "sync_interval" = None ->
  sync_content w st = (Raise (KeyError "sync_interval"), st).
Proof.
  intros Hl Hln Hi. unfold sync_content. unfold_monad.
  rewrite Hl. unfold py_sub. cbn [as_number]. by rewrite Hln, Hi.
Qed.

(** X8.  Without [last_sync_time] in the session [sync_content] raises
    [KeyError('last_sync_time')]; with a numeric [last_sync_time] but
    without [sync_interval] it raises [KeyError('sync_interval')]; with a
    [last_sync_time] that is not a number it raises a [TypeError].  In all
    three cases nothing is fetched and the session is left as it was. *)
Theorem sync_content_missing_fields (w : Env) (st : state) :
  (session st !! "last_sync_time" = None ->
   sync_content w st = (Raise (KeyError "last_sync_time"), st)) /\
  (forall lv l,
     session st !! "last_sync_time" = Some lv -> as_number lv = Some l ->
     session st !! "sync_interval" = None ->
     sync_content w st = (Raise (KeyError "sync_interval"), st)) /\
  (forall lv,
     session st !! "last_sync_time" = Some lv -> as_number lv = None ->
     exists what, sync_content w st = (Raise (TypeError what), st)).
Proof.
  split; [apply sync_content_without_last_sync_time|].
  split; [apply sync_content_without_sync_interval|].
  intros lv Hl Hln. unfold sync_content. unfold_monad.
  rewrite Hl. unfold py_sub. cbn [as_number]. rewrite Hln. eauto.
Qed.

Lemma sync_content_missing_fields_witness :
  sync_content (healthy_env 1000) new_client
  = (Raise (KeyError "last_sync_time"), new_client) /\
  sync_content (healthy_env 1000)
    (State {["last_sync_time" := VNum 0]} [])
  = (Raise (KeyError "sync_interval"),
     State {["last_sync_time" := VNum 0]} []) /\
  exists what,
    sync_content (healthy_env 1000)
      (State {["last_sync_time" := VNone]} [])
    = (Raise (TypeError what), State {["last_sync_time" := VNone]} []).
Proof.
  destruct (sync_content_missing_fields (healthy_env 1000) new_client)
    as (Hnone & _ & _).
  destruct (sync_content_missing_fields (healthy_env 1000)
              (State {["last_sync_time" := VNum 0]} []))
    as (_ & Hinterval & _).
  destruct (sync_content_missing_fields (healthy_env 1000)
              (State {["last_sync_time" := VNone]} []))
    as (_ & _ & Htype).
  exact (conj (Hnone eq_refl)
           (conj (Hinterval (VNum 0) 0 eq_refl eq_refl eq_refl)
              (Htype VNone eq_refl eq_refl))).
Defined.

(** X9.  [/sync] does not initialise the session: on a session without
    [sync_interval] (a client whose first request is [/sync]) it raises
    [KeyError('sync_interval')], having stored [last_sync_time = 0] and
    fetched nothing. *)
Theorem sync_on_uninitialised_session (w : Env) (st : state) :
  session st !! "sync_interval" = None ->
  sync w st =
  (Raise (KeyError "sync_interval"),
   State (<["last_sync_time" := VNum 0]> (session st)) (trace st)).
Proof.
  intros Hi. rewrite sync_eq.
  rewrite (sync_content_without_sync_interval w _ (VNum 0) 0); try done.
  - cbn. apply lookup_insert_eq.
  - cbn. by rewrite lookup_insert_ne.
Qed.

Lemma sync_on_uninitialised_session_witness :
  outcome (sync (healthy_env 1000) new_client)
  = Raise (KeyError "sync_interval").
Proof.
  rewrite (sync_on_uninitialised_session (healthy_env 1000) new_client eq_refl).
  reflexivity.
Defined.

(** *** The throttle *)

Lemma lookup_overwrite_ne items_key handle fetched (s : gmap string value) k :
  k ≠ items_key -> overwrite items_key handle fetched s !! k = s !! k.
Proof.
  intros Hk. unfold overwrite. destruct handle; [done|].
  by rewrite lookup_insert_ne.
Qed.

(** X10.  Once a stale [sync_content] has gone through at time [now], every
    [sync_content] less than [sync_interval] later is a no-op: it fetches
    nothing and leaves the session as the first one made it. *)
Theorem sync_content_throttles (w w' : Env) (st : state) (lv iv_v : value)
    (l iv : Z) :
  session st !! "last_sync_time" = Some lv -> as_number lv = Some l ->
  session st !! "sync_interval" = Some iv_v -> as_number iv_v = Some iv ->
  iv <= time_time w - l ->
  (forall h, active_handle (session st) "youtube_api" = [h] ->
             exists videos, fetched_videos w h = Ok videos) ->
  time_time w' - time_time w < iv ->
  outcome (sync_content w st) = Ok tt /\
  sync_content w' (snd (sync_content w st))
  = (Ok tt, snd (sync_content w st)).
Proof.
  intros Hl Hln Hi Hin Hstale Hret Hsoon.
  rewrite (sync_content_stale _ _ _ _ _ _ Hl Hln Hi Hin Hstale Hret).
  split; [done|]. cbn [snd].
  rewrite (sync_content_gate w' _ (VNum (time_time w)) iv_v (time_time w) iv).
  - by assert ((iv <=? time_time w' - time_time w) = false) as -> by lia.
  - cbn. apply lookup_insert_eq.
  - done.
  - cbn. by rewrite lookup_insert_ne, !lookup_overwrite_ne.
  - done.
Qed.

Lemma sync_content_throttles_witness :
  sync_content (healthy_env 1230)
    (snd (sync_content (healthy_env 1200) (State (logged_in_session 1100) [])))
  = (Ok tt,
     snd (sync_content (healthy_env 1200) (State (logged_in_session 1100) []))).
Proof.
  apply (sync_content_throttles (healthy_env 1200) (healthy_env 1230)
           (State (logged_in_session 1100) []) (VNum 1100) (VNum 60) 1100 60).
  - vm_compute. reflexivity.
  - reflexivity.
  - vm_compute. reflexivity.
  - reflexivity.
  - cbn. lia.
  - intros h Hh. vm_compute in Hh. injection Hh as <-.
    eexists. vm_compute. reflexivity.
  - cbn. lia.
Defined.


(** ** The callbacks when the exchange succeeds *)

Lemma trace_extends_refl st : trace_extends st st.
Proof. exists []. by rewrite app_nil_r. Qed.

Lemma trace_extends_trans a b c :
  trace_extends a b -> trace_extends b c -> trace_extends a c.
Proof.
  intros [n1 H1] [n2 H2]. exists (n1 ++ n2). by rewrite H2, H1, app_assoc.
Qed.

Lemma trace_extends_emit st ev :
  trace_extends st (State (session st) (trace st ++ [ev])).
Proof. by exists [ev]. Qed.

Lemma trace_extends_init st :
  trace_extends st (State (initialised (session st)) (trace st)).
Proof. apply (trace_extends_refl st). Qed.

Lemma trace_extends_insert k v st :
  trace_extends st (State (<[k := v]> (session st)) (trace st)).
Proof. apply (trace_extends_refl st). Qed.

Ltac trace_extends_tac known :=
  repeat relates_step trace_extends_refl trace_extends_trans
    trace_extends_emit trace_extends_init
    ltac:(intros ?; apply trace_extends_insert) known.

Lemma sync_content_trace_extends (w : Env) :
  relates trace_extends (sync_content w).
Proof. unfold sync_content. trace_extends_tac fail. Qed.

(** [try: body finally: os.unlink(path)] when the file can be removed: the
    body's result, and the removal as the last thing done. *)
Lemma try_finally_unlink {A} (w : Env) (body : M A) (path : string)
    (st : state) :
  os_unlink w path = Ok tt ->
  try_finally body (unlink w path) st =
  (fst (body st),
   State (session (snd (body st))) (trace (snd (body st)) ++ [Unlinked path])).
Proof.
  intros Hunlink. unfold try_finally, unlink. unfold_monad.
  destruct (body st) as [r st']. by rewrite Hunlink.
Qed.

(** A video callback whose state matches and whose exchange succeeds, in
    closed form. *)
Lemma youtube_callback_exchanged (w : Env) (args : gmap string string)
    (st : state) (code state_arg path : string) (credentials : value)
    (json : string) (youtube_api : value) :
  args !! "code" = Some code ->
  args !! "state" = Some state_arg ->
  session st !! "oauth_state" = Some (VStr state_arg) ->
  youtube_exchange_succeeds w code path credentials json youtube_api ->
  youtube_callback w args st =
  let run := sync_content w (after_youtube_exchange st path code json youtube_api) in
  (match fst run with
   | Ok _ => Ok (Redirect "/")
   | Raise e => Raise e
   end,
   State (session (snd run)) (trace (snd run) ++ [Unlinked path])).
Proof.
  intros Hcode Hstate Hstored
    (flow & flow' & Hcreate & Hwrite & Hflow & Huri & Htoken & Hjson & Hbuild
     & Hunlink).
  unfold youtube_callback, create_temp_client_secret_file, unlink,
    get_youtube_api, after_youtube_exchange.
  rewrite Hcode, Hstate. unfold_monad.
  rewrite Hstored. cbn [default id is_None]. rewrite Hstored.
  cbn [default id py_ne_str]. rewrite bool_decide_eq_true_2 by done.
  cbn [negb]. rewrite Hcreate. cbn [session trace]. rewrite Hwrite.
  cbn [session trace].
  rewrite Hflow, Huri, Htoken, Hjson, Hbuild. cbn [session trace].
  rewrite <- !app_assoc. cbn [app]. cbv zeta.
  change (url_for "index") with (Ok "/" : result string).
  destruct (sync_content w _) as [[[]|e] st']; cbn [fst snd session trace];
    by rewrite Hunlink.
Qed.


(** What a video callback leaves behind once the exchange has succeeded. *)
Lemma youtube_callback_after_exchange (w : Env)
    (args : gmap string string) (st : state) (code state_arg path : string)
    (credentials : value) (json : string) (youtube_api : value) :
  args !! "code" = Some code ->
  args !! "state" = Some state_arg ->
  session st !! "oauth_state" = Some (VStr state_arg) ->
  youtube_exchange_succeeds w code path credentials json youtube_api ->
  let run := youtube_callback w args st in
  let synced := sync_content w
                  (after_youtube_exchange st path code json youtube_api) in
  session_after run !! "youtube_credentials" = Some (VStr json) /\
  session_after run !! "youtube_api" = Some youtube_api /\
  outcome run = match outcome synced with
                | Ok _ => Ok (Redirect "/")
                | Raise e => Raise e
                end /\
  exists fetched,
    trace_after run
    = trace st ++ [TempFileCreated path; TempFileWritten; ReqFetchToken code]
      ++ fetched ++ [Unlinked path].
Proof.
  intros Hcode Hstate Hstored Hexchange run synced. subst run synced.
  rewrite (youtube_callback_exchanged _ _ _ _ _ _ _ _ _
             Hcode Hstate Hstored Hexchange).
  cbv zeta. cbn [outcome session_after trace_after fst snd session trace].
  set (st1 := after_youtube_exchange st path code json youtube_api).
  pose proof (sync_content_keeps_bindings w
                ["youtube_videos"; "reddit_posts"; "last_sync_time"]
                ltac:(repeat constructor) ltac:(repeat constructor)
                ltac:(repeat constructor) st1) as Hkeep.
  destruct (sync_content_trace_extends w st1) as [fetched Hfetched].
  repeat split.
  - apply (Hkeep "youtube_credentials"); [not_listed|].
    subst st1. cbn. by simplify_map_eq.
  - apply (Hkeep "youtube_api"); [not_listed|].
    subst st1. cbn. by simplify_map_eq.
  - exists fetched. rewrite Hfetched. subst st1. cbn [trace after_youtube_exchange].
    by rewrite <- !app_assoc.
Qed.

(** X11.  When the state matches and the exchange succeeds, the video
    callback stores the serialised credentials and the client handle, and
    they stay stored whatever the sync that follows does: the handler ends
    with the redirect to the landing route if [sync_content] returns, with
    its exception otherwise.  The exchange is the first provider call after
    the secret file is written, and the removal of that file the last thing
    done. *)
Theorem youtube_callback_stores_credentials (w : Env)
    (args : gmap string string) (st : state) (code state_arg path : string)
    (credentials : value) (json : string) (youtube_api : value) :
  args !! "code" = Some code ->
  args !! "state" = Some state_arg ->
  session st !! "oauth_state" = Some (VStr state_arg) ->
  youtube_exchange_succeeds w code path credentials json youtube_api ->
  let run := youtube_callback w args st in
  let synced := sync_content w
                  (after_youtube_exchange st path code json youtube_api) in
  session_after run !! "youtube_credentials" = Some (VStr json) /\
  session_after run !! "youtube_api" = Some youtube_api /\
  outcome run = match outcome synced with
                | Ok _ => Ok (Redirect "/")
                | Raise e => Raise e
                end /\
  exists fetched,
    trace_after run
    = trace st ++ [TempFileCreated path; TempFileWritten; ReqFetchToken code]
      ++ fetched ++ [Unlinked path].
Proof. apply youtube_callback_after_exchange. Qed.


Lemma sample_exchange_succeeds (now : Z) liked saved_things :
  youtube_exchange_succeeds (sample_env now liked saved_things None)
    "4/0AX4" "/tmp/tmpab12.json"
    (VObj "Credentials" [("token", VStr "ya29.a0")]) "{}" youtube_handle.
Proof.
  exists (VObj "InstalledAppFlow" []),
    (VObj "InstalledAppFlow"
       [("redirect_uri", VStr YOUTUBE_REDIRECT_URI)]).
  repeat split.
Qed.

Lemma youtube_callback_stores_credentials_witness :
  session_after
    (youtube_callback (healthy_env 1000)
       {["code" := "4/0AX4"; "state" := "abc"]}
       (State (session_awaiting_callback 1000) []))
    !! "youtube_api" = Some youtube_handle.
Proof.
  destruct (youtube_callback_stores_credentials (healthy_env 1000)
              {["code" := "4/0AX4"; "state" := "abc"]}
              (State (session_awaiting_callback 1000) [])
              "4/0AX4" "abc" "/tmp/tmpab12.json"
              (VObj "Credentials" [("token", VStr "ya29.a0")]) "{}"
              youtube_handle)
    as (_ & Hapi & _).
  - reflexivity.
  - reflexivity.
  - vm_compute. reflexivity.
  - apply sample_exchange_succeeds.
  - exact Hapi.
Defined.

(** X12.  On a session that has no [last_sync_time], a video callback with
    matching state exchanges the code, stores credentials and handle,
    removes the secret file, and then ends with [KeyError('last_sync_time')]
    instead of the redirect, because the callback runs [sync_content]
    without [init_session]. *)
Theorem youtube_callback_on_uninitialised_session (w : Env)
    (args : gmap string string) (st : state) (code state_arg path : string)
    (credentials : value) (json : string) (youtube_api : value) :
  args !! "code" = Some code ->
  args !! "state" = Some state_arg ->
  session st !! "oauth_state" = Some (VStr state_arg) ->
  youtube_exchange_succeeds w code path credentials json youtube_api ->
  session st !! "last_sync_time" = None ->
  youtube_callback w args st =
  (Raise (KeyError "last_sync_time"),
   State (<["youtube_api" := youtube_api]>
            (<["youtube_credentials" := VStr json]> (session st)))
         (trace st ++ [TempFileCreated path; TempFileWritten;
                       ReqFetchToken code; Unlinked path])).
Proof.
  intros Hcode Hstate Hstored Hexchange Hlast.
  rewrite (youtube_callback_exchanged _ _ _ _ _ _ _ _ _
             Hcode Hstate Hstored Hexchange).
  rewrite sync_content_without_last_sync_time.
  - cbv zeta. cbn [fst snd session trace after_youtube_exchange].
    by rewrite <- app_assoc.
  - cbn. by rewrite !lookup_insert_ne.
Qed.

Lemma youtube_callback_on_uninitialised_session_witness :
  outcome
    (youtube_callback (healthy_env 1000)
       {["code" := "4/0AX4"; "state" := "abc"]}
       (State {["oauth_state" := VStr "abc"]} []))
  = Raise (KeyError "last_sync_time").
Proof.
  rewrite (youtube_callback_on_uninitialised_session (healthy_env 1000)
             {["code" := "4/0AX4"; "state" := "abc"]}
             (State {["oauth_state" := VStr "abc"]} [])
             "4/0AX4" "abc" "/tmp/tmpab12.json"
             (VObj "Credentials" [("token", VStr "ya29.a0")]) "{}"
             youtube_handle).
  - reflexivity.
  - reflexivity.
  - reflexivity.
  - vm_compute. reflexivity.
  - apply sample_exchange_succeeds.
  - vm_compute. reflexivity.
Defined.


(** *** The secret file *)

Lemma bind_eq {A B} (m : M A) (k : A -> M B) (st : state) :
  (m ≫= k) st =
  match m st with
  | (Ok a, st') => k a st'
  | (Raise e, st') => (Raise e, st')
  end.
Proof. reflexivity. Qed.

Lemma create_temp_client_secret_file_eq (w : Env) (st : state)
    (path : string) :
  NamedTemporaryFile w = Ok path ->
  temp_file_write w path = Ok tt ->
  create_temp_client_secret_file w st =
  (Ok path,
   State (session st) (trace st ++ [TempFileCreated path; TempFileWritten])).
Proof.
  intros Hcreate Hwrite. unfold create_temp_client_secret_file. unfold_monad.
  rewrite Hcreate. cbn [session trace]. rewrite Hwrite. cbn [session trace].
  by rewrite <- app_assoc.
Qed.

(** When the write of the secret raises, the file has been created and
    nothing else done. *)
Lemma create_temp_client_secret_file_write_raises (w : Env) (st : state)
    (path : string) (e : exn) :
  NamedTemporaryFile w = Ok path ->
  temp_file_write w path = Raise e ->
  create_temp_client_secret_file w st =
  (Raise e, State (session st) (trace st ++ [TempFileCreated path])).
Proof.
  intros Hcreate Hwrite. unfold create_temp_client_secret_file. unfold_monad.
  rewrite Hcreate. cbn [session trace]. by rewrite Hwrite.
Qed.

(** A video callback whose state matches gets to the secret file. *)
Lemma youtube_callback_past_checks (w : Env) (args : gmap string string)
    (st : state) (code state_arg : string) :
  args !! "code" = Some code ->
  args !! "state" = Some state_arg ->
  session st !! "oauth_state" = Some (VStr state_arg) ->
  exists body : string -> M response,
    (forall client_secret_file,
       relates trace_extends (body client_secret_file)) /\
    youtube_callback w args st =
    (client_secret_file ← create_temp_client_secret_file w;
     try_finally (body client_secret_file) (unlink w client_secret_file)) st.
Proof.
  intros Hcode Hstate Hstored.
  unfold youtube_callback. rewrite Hcode, Hstate.
  eexists (fun client_secret_file => _). split; cycle 1.
  - rewrite bind_eq. unfold session_get at 1.
    rewrite Hstored. cbn [default id is_None].
    rewrite bind_eq, bind_eq. unfold session_get at 1.
    rewrite Hstored. cbn [default id py_ne_str mret M_ret].
    rewrite bool_decide_eq_true_2 by done. cbn [negb].
    reflexivity.
  - intros client_secret_file. unfold get_youtube_api.
    trace_extends_tac ltac:(apply sync_content_trace_extends).
Qed.

(** X13.  The temporary client-secret file is removed on every exit path of
    the [try] block, which is not every exit path of the handler:
    [create_temp_client_secret_file] runs before the [try].  When the file
    has been created and the write of the secret raises, [/youtube-login]
    and a video callback that got past its two checks end with that
    exception, the file created and never removed.  Once the file has been
    written (and can be removed), [/youtube-login] does nothing else the
    trace records and ends with its removal, and the callback ends with its
    removal too, whatever the flow, the exchange, the client construction
    or the sync did in between, returning or raising. *)
Theorem temp_file_unlinked_unless_write_fails (w : Env) (st : state)
    (path : string) :
  NamedTemporaryFile w = Ok path ->
  (forall e,
     temp_file_write w path = Raise e ->
     youtube_login w st
       = (Raise e, State (session st) (trace st ++ [TempFileCreated path])) /\
     (forall args code state_arg,
        args !! "code" = Some code ->
        args !! "state" = Some state_arg ->
        session st !! "oauth_state" = Some (VStr state_arg) ->
        youtube_callback w args st
          = (Raise e,
             State (session st) (trace st ++ [TempFileCreated path])))) /\
  (temp_file_write w path = Ok tt ->
   os_unlink w path = Ok tt ->
   trace_after (youtube_login w st)
     = trace st ++ [TempFileCreated path; TempFileWritten; Unlinked path] /\
   (forall args code state_arg,
      args !! "code" = Some code ->
      args !! "state" = Some state_arg ->
      session st !! "oauth_state" = Some (VStr state_arg) ->
      exists between,
        trace_after (youtube_callback w args st)
        = trace st ++ [TempFileCreated path; TempFileWritten] ++ between
          ++ [Unlinked path])).
Proof.
  intros Hcreate. split.
  - intros e Hwrite. split.
    + unfold youtube_login.
      by rewrite bind_eq,
        (create_temp_client_secret_file_write_raises _ _ _ _ Hcreate Hwrite).
    + intros args code state_arg Hcode Hstate Hstored.
      destruct (youtube_callback_past_checks w args st code state_arg
                  Hcode Hstate Hstored) as (body & _ & ->).
      by rewrite bind_eq,
        (create_temp_client_secret_file_write_raises _ _ _ _ Hcreate Hwrite).
  - intros Hwrite Hunlink. split.
    + unfold youtube_login.
      rewrite bind_eq,
        (create_temp_client_secret_file_eq _ _ _ Hcreate Hwrite).
      rewrite (try_finally_unlink w _ path _ Hunlink).
      cbn [trace_after snd trace].
      replace (trace st ++ [TempFileCreated path; TempFileWritten;
                            Unlinked path])
        with ((trace st ++ [TempFileCreated path; TempFileWritten])
              ++ [Unlinked path])
        by (by rewrite <- app_assoc).
      f_equal. unfold_monad. cbn [session trace].
      destruct (from_client_secrets_file w path YOUTUBE_SCOPES) as [flow|e];
        [|done].
      destruct (py_setattr flow _ _) as [flow'|e]; [|done].
      destruct (authorization_url w flow') as [[[url token] flow'']|e];
        [|done].
      by destruct (py_dict flow'') as [d|e].
    + intros args code state_arg Hcode Hstate Hstored.
      destruct (youtube_callback_past_checks w args st code state_arg
                  Hcode Hstate Hstored) as (body & Hbody & ->).
      rewrite bind_eq,
        (create_temp_client_secret_file_eq _ _ _ Hcreate Hwrite).
      rewrite (try_finally_unlink w _ path _ Hunlink).
      cbn [trace_after snd trace].
      destruct (Hbody path
                  (State (session st)
                     (trace st ++ [TempFileCreated path; TempFileWritten])))
        as [between Hbetween].
      rewrite Hbetween. exists between. cbn [trace].
      by rewrite <- !app_assoc.
Qed.

(** With [YOUTUBE_CLIENT_SECRET_JSON] unset the login ends with the file
    created and left behind; with the secret set it ends with the file
    removed, also when the exchange fails. *)
Lemma temp_file_unlinked_unless_write_fails_witness :
  youtube_login (secret_unset_env 1000) new_client
  = (Raise (TypeError "write() argument must be str, not None"),
     State (session new_client)
       (trace new_client ++ [TempFileCreated "/tmp/tmpab12.json"])) /\
  trace_after (youtube_login (transport_failure_env 1000) new_client)
  = trace new_client
    ++ [TempFileCreated "/tmp/tmpab12.json"; TempFileWritten;
        Unlinked "/tmp/tmpab12.json"] /\
  exists between,
    trace_after
      (youtube_callback (transport_failure_env 1000)
         {["code" := "4/0AX4"; "state" := "abc"]}
         (State (session_awaiting_callback 1000) []))
    = [] ++ [TempFileCreated "/tmp/tmpab12.json"; TempFileWritten] ++ between
      ++ [Unlinked "/tmp/tmpab12.json"].
Proof.
  destruct (temp_file_unlinked_unless_write_fails (secret_unset_env 1000)
              new_client "/tmp/tmpab12.json" eq_refl) as [Hleak _].
  destruct (Hleak _ eq_refl) as [Hleft _].
  destruct (temp_file_unlinked_unless_write_fails (transport_failure_env 1000)
              new_client "/tmp/tmpab12.json" eq_refl) as [_ Hremoved].
  destruct (Hremoved eq_refl eq_refl) as [Hlogin _].
  destruct (temp_file_unlinked_unless_write_fails (transport_failure_env 1000)
              (State (session_awaiting_callback 1000) [])
              "/tmp/tmpab12.json" eq_refl) as [_ Hremoved'].
  destruct (Hremoved' eq_refl eq_refl) as [_ Hcallback].
  refine (conj Hleft (conj Hlogin _)).
  apply (Hcallback _ "4/0AX4" "abc");
    [reflexivity | reflexivity | vm_compute; reflexivity].
Defined.

(** ** The discussion callback *)

(** A discussion callback whose exchange returns a client, in closed form:
    the client's attributes are stored, the sync runs, and whatever the sync
    raises comes back as a login failure. *)
Lemma reddit_callback_exchanged (w : Env) (args : gmap string string)
    (st : state) (code : string) (reddit : value) (cls : string)
    (attrs : list (string * value)) :
  args !! "code" = Some code ->
  praw_Reddit w REDDIT_REDIRECT_URI = Ok reddit ->
  auth_authorize w reddit code = Ok (VObj cls attrs) ->
  reddit_callback w args st =
  match sync_content w (after_reddit_exchange st code attrs) with
  | (Ok _, st') => (Ok (Redirect "/"), st')
  | (Raise e, st') =>
      (Ok (Body ("Reddit login failed: " +:+ str_exn w e) 400), st')
  end.
Proof.
  intros Hcode Hreddit Hauth.
  unfold reddit_callback, after_reddit_exchange. rewrite Hcode. unfold_monad.
  rewrite Hreddit. cbn [session trace]. rewrite Hauth. cbn [py_dict].
  cbn [session trace].
  change (url_for "index") with (Ok "/" : result string).
  by destruct (sync_content w _) as [[[]|e] st'].
Qed.

(** X14.  The discussion callback never raises: everything after the check
    for [code] runs inside [try ... except Exception], so each run ends with
    the redirect to the landing route or with a status-400 text. *)
Theorem reddit_callback_never_raises (w : Env) (args : gmap string string)
    (st : state) :
  outcome (reddit_callback w args st) = Ok (Redirect "/") \/
  exists body, outcome (reddit_callback w args st) = Ok (Body body 400).
Proof.
  unfold reddit_callback.
  destruct (args !! "code") as [code|]; [|right; eauto].
  unfold_monad.
  destruct (praw_Reddit w REDDIT_REDIRECT_URI) as [reddit|e];
    [|right; eauto].
  cbn [session trace].
  destruct (auth_authorize w reddit code) as [client|e]; [|right; eauto].
  destruct (py_dict client) as [d|e]; [|right; eauto].
  cbn [session trace].
  change (url_for "index") with (Ok "/" : result string).
  destruct (sync_content w _) as [[[]|e] st']; [by left|right; eauto].
Qed.

(** X15.  On a session that was never initialised, a discussion callback
    whose exchange succeeded stores the client and then reports
    "Reddit login failed: " followed by the text of
    [KeyError('last_sync_time')]: the failure of [sync_content] is taken for
    a failure of the login. *)
Theorem reddit_callback_on_uninitialised_session (w : Env)
    (args : gmap string string) (st : state) (code : string)
    (reddit : value) (cls : string) (attrs : list (string * value)) :
  args !! "code" = Some code ->
  praw_Reddit w REDDIT_REDIRECT_URI = Ok reddit ->
  auth_authorize w reddit code = Ok (VObj cls attrs) ->
  session st !! "last_sync_time" = None ->
  reddit_callback w args st =
  (Ok (Body ("Reddit login failed: "
             +:+ str_exn w (KeyError "last_sync_time")) 400),
   State (<["reddit" := VDict attrs]> (session st))
         (trace st ++ [ReqAuthorize code])).
Proof.
  intros Hcode Hreddit Hauth Hlast.
  rewrite (reddit_callback_exchanged _ _ _ _ _ _ _ Hcode Hreddit Hauth).
  rewrite sync_content_without_last_sync_time; [done|].
  cbn. by rewrite lookup_insert_ne.
Qed.

Lemma reddit_callback_on_uninitialised_session_witness :
  outcome (reddit_callback (healthy_env 1000) {["code" := "Hq3x"]} new_client)
  = Ok (Body "Reddit login failed: 'last_sync_time'" 400) /\
  session_after
    (reddit_callback (healthy_env 1000) {["code" := "Hq3x"]} new_client)
    !! "reddit" = Some reddit_handle.
Proof.
  rewrite (reddit_callback_on_uninitialised_session (healthy_env 1000)
             {["code" := "Hq3x"]} new_client "Hq3x" reddit_client
             "Reddit" [("user", VObj "User" [])]);
    [split; reflexivity | reflexivity | reflexivity | reflexivity
    | reflexivity].
Defined.

(** X16.  When the exchange succeeds the discussion callback stores the
    client's attribute dictionary under [reddit], and it stays stored
    whatever the sync does; the answer is the redirect exactly when
    [sync_content] returns. *)
Theorem reddit_callback_stores_client (w : Env) (args : gmap string string)
    (st : state) (code : string) (reddit : value) (cls : string)
    (attrs : list (string * value)) :
  args !! "code" = Some code ->
  praw_Reddit w REDDIT_REDIRECT_URI = Ok reddit ->
  auth_authorize w reddit code = Ok (VObj cls attrs) ->
  let run := reddit_callback w args st in
  let synced := sync_content w (after_reddit_exchange st code attrs) in
  session_after run !! "reddit" = Some (VDict attrs) /\
  (outcome run = Ok (Redirect "/") <-> outcome synced = Ok tt) /\
  exists fetched, trace_after run = trace st ++ [ReqAuthorize code] ++ fetched.
Proof.
  intros Hcode Hreddit Hauth run synced. subst run synced.
  rewrite (reddit_callback_exchanged _ _ _ _ _ _ _ Hcode Hreddit Hauth).
  set (st1 := after_reddit_exchange st code attrs).
  pose proof (sync_content_keeps_bindings w
                ["youtube_videos"; "reddit_posts"; "last_sync_time"]
                ltac:(repeat constructor) ltac:(repeat constructor)
                ltac:(repeat constructor) st1) as Hkeep.
  destruct (sync_content_trace_extends w st1) as [fetched Hfetched].
  specialize (Hkeep "reddit" (VDict attrs) ltac:(not_listed)
                ltac:(apply lookup_insert_eq)).
  destruct (sync_content w st1) as [[[]|e] st'];
    unfold outcome, session_after, trace_after in *; cbn [fst snd] in *;
    (split; [exact Hkeep|]); (split; [done|]);
    exists fetched; rewrite Hfetched; subst st1;
    cbn [trace after_reddit_exchange]; by rewrite <- app_assoc.
Qed.

Lemma reddit_callback_stores_client_witness :
  session_after
    (reddit_callback (healthy_env 1000) {["code" := "Hq3x"]}
       (State new_session []))
    !! "reddit" = Some reddit_handle.
Proof.
  destruct (reddit_callback_stores_client (healthy_env 1000)
              {["code" := "Hq3x"]} (State new_session []) "Hq3x"
              reddit_client "Reddit" [("user", VObj "User" [])])
    as (Hstored & _); [reflexivity | reflexivity | reflexivity |].
  exact Hstored.
Defined.


(** ** The fetchers, further *)

(** X18.  Saved things without a title (comments) have no part in the
    result of the discussion fetcher: the loop over a listing does exactly
    what it does over the titled items alone, also when an untitled item
    lacks [permalink] or [subreddit]. *)
Theorem saved_loop_skips_untitled (w : Env) (items saved_posts : list value) :
  saved_loop w items saved_posts =
  saved_loop w (List.filter (fun item => py_hasattr item "title") items)
    saved_posts.
Proof.
  revert saved_posts. induction items as [|item rest IH]; intros acc; [done|].
  cbn [saved_loop List.filter].
  destruct (py_hasattr item "title") eqn:Htitle; [|apply IH].
  cbn [saved_loop]. rewrite Htitle. unfold mbind, result_bind.
  destruct (post_record w item); [apply IH|done].
Qed.

(** X19.  A response without an [items] key, or with an empty [items]
    list, gives the empty list of videos: [response.get("items", [])]
    supplies the default and the loop body never runs. *)
Theorem fetch_youtube_without_items (w : Env) (cls : string)
    (attrs d : list (string * value)) (st : state) :
  videos_list_execute w (VObj cls attrs) "snippet" "like" 10 = Ok (VDict d) ->
  assoc "items" d = None \/ assoc "items" d = Some (VList []) ->
  outcome (fetch_youtube_saved_videos w (VObj cls attrs) st) = Ok (VList []).
Proof.
  intros Hresponse Hitems. rewrite fetch_youtube_saved_videos_eq.
  unfold outcome, fetched_videos, videos_of. cbn [fst].
  rewrite Hresponse. unfold mbind, result_bind. cbn [dict_get].
  by destruct Hitems as [-> | ->].
Qed.

Lemma fetch_youtube_without_items_witness :
  outcome
    (fetch_youtube_saved_videos (sample_env 1000 (Ok []) sample_saved None)
       youtube_handle new_client)
  = Ok (VList []).
Proof.
  apply (fetch_youtube_without_items _ _ _
           [("kind", VStr "youtube#videoListResponse"); ("items", VList [])]).
  - reflexivity.
  - right. reflexivity.
Defined.

(** ** The logouts together *)

(** X20.  The two logouts commute, and each is idempotent: the order in
    which a client logs out of the providers, and logging out twice, make
    no difference to the session. *)
Theorem logouts_commute (st : state) :
  session_after (logout_reddit (snd (logout_youtube st)))
  = session_after (logout_youtube (snd (logout_reddit st))) /\
  session_after (logout_youtube (snd (logout_youtube st)))
  = session_after (logout_youtube st) /\
  session_after (logout_reddit (snd (logout_reddit st)))
  = session_after (logout_reddit st).
Proof.
  rewrite !logout_youtube_session, !logout_reddit_session.
  change (session (snd (logout_youtube st)))
    with (session_after (logout_youtube st)).
  change (session (snd (logout_reddit st)))
    with (session_after (logout_reddit st)).
  rewrite !logout_youtube_session, !logout_reddit_session.
  repeat split; apply map_eq; intros k;
    rewrite !lookup_insert; repeat case_decide; congruence.
Qed.


(** ** Failures and successes, further *)



Section LoopsComplete.

Context (w : Env).

Lemma videos_loop_complete (items videos records : list value) :
  Forall2 (fun item r => video_record w item = Ok r) items records ->
  videos_loop w items videos = Ok (videos ++ records).
Proof.
  intros Hall. revert videos.
  induction Hall as [|item r items records Hitem _ IH]; intros videos.
  - by rewrite app_nil_r.
  - cbn [videos_loop]. rewrite Hitem. unfold mbind, result_bind.
    by rewrite IH, <- app_assoc.
Qed.

Lemma saved_loop_complete (items saved_posts records : list value) :
  Forall2 (fun item r => post_record w item = Ok r)
    (List.filter (fun item => py_hasattr item "title") items) records ->
  saved_loop w items saved_posts = Ok (saved_posts ++ records).
Proof.
  revert saved_posts records.
  induction items as [|item rest IH]; intros acc records Hall.
  - inversion Hall. by rewrite app_nil_r.
  - cbn [saved_loop List.filter] in *.
    destruct (py_hasattr item "title"); [|by apply IH].
    inversion Hall as [|? r ? records' Hitem Hrest]; subst.
    rewrite Hitem. unfold mbind, result_bind.
    by rewrite (IH _ _ Hrest), <- app_assoc.
Qed.

Lemma saved_loop_bad_item (items saved_posts : list value) (item : value)
    (e : exn) :
  item ∈ items -> py_hasattr item "title" = true ->
  post_record w item = Raise e ->
  exists e', saved_loop w items saved_posts = Raise e'.
Proof.
  intros Hin Htitle Hbad. revert saved_posts.
  induction items as [|x rest IH]; intros acc; [by apply elem_of_nil in Hin|].
  cbn [saved_loop]. apply elem_of_cons in Hin as [<-|Hin].
  - rewrite Htitle, Hbad. eauto.
  - destruct (py_hasattr x "title"); [|by apply IH].
    unfold mbind, result_bind. destruct (post_record w x); [by apply IH|eauto].
Qed.

End LoopsComplete.

(** X22.  When every item of the provider's answer is complete, each
    fetcher returns one record per item, in order: the video fetcher for
    every item of the response, the discussion fetcher for every titled item
    of a listing that ended without an error. *)
Theorem fetchers_return_every_record (w : Env) (cls : string)
    (attrs : list (string * value)) (st : state) (records : list value) :
  (forall response items,
     videos_list_execute w (VObj cls attrs) "snippet" "like" 10
       = Ok response ->
     dict_get response "items" (VList []) = Ok (VList items) ->
     Forall2 (fun item r => video_record w item = Ok r) items records ->
     outcome (fetch_youtube_saved_videos w (VObj cls attrs) st)
     = Ok (VList records)) /\
  (forall things,
     user_me_saved w (VObj cls attrs) 10 = Ok things ->
     failure things = None ->
     Forall2 (fun item r => post_record w item = Ok r)
       (List.filter (fun item => py_hasattr item "title") (yielded things))
       records ->
     outcome (fetch_reddit_saved_posts w (VObj cls attrs) st)
     = Ok (VList records)).
Proof.
  split.
  - intros response items Hresponse Hitems Hall.
    rewrite fetch_youtube_saved_videos_eq.
    unfold outcome, fetched_videos, videos_of. cbn [fst].
    rewrite Hresponse. unfold mbind, result_bind. rewrite Hitems.
    cbn [iterate]. by rewrite (videos_loop_complete w _ [] _ Hall).
  - intros things Hsaved Hfailure Hall.
    rewrite fetch_reddit_saved_posts_eq.
    unfold outcome, fetched_posts, posts_of. cbn [fst].
    rewrite Hsaved. unfold mbind, result_bind.
    by rewrite (saved_loop_complete w _ [] _ Hall), Hfailure.
Qed.

(** X23.  One bad submission voids the whole discussion fetch: if a titled
    item of the listing lacks [permalink] or [subreddit] (or its subreddit
    has no [display_name]), the fetcher returns the empty list, not the
    records of the other items. *)
Theorem fetch_reddit_all_or_nothing (w : Env) (cls : string)
    (attrs : list (string * value)) (st : state) (things : listing)
    (item : value) (e : exn) :
  user_me_saved w (VObj cls attrs) 10 = Ok things ->
  item ∈ yielded things ->
  py_hasattr item "title" = true ->
  post_record w item = Raise e ->
  outcome (fetch_reddit_saved_posts w (VObj cls attrs) st) = Ok (VList []).
Proof.
  intros Hsaved Hin Htitle Hbad.
  rewrite fetch_reddit_saved_posts_eq.
  unfold outcome, fetched_posts, posts_of. cbn [fst].
  rewrite Hsaved. unfold mbind, result_bind.
  destruct (saved_loop_bad_item w _ [] _ _ Hin Htitle Hbad) as [e' ->].
  done.
Qed.


Lemma fetchers_return_every_record_witness :
  outcome (fetch_youtube_saved_videos (healthy_env 1000) youtube_handle
             new_client)
  = Ok (VList sample_video_records) /\
  outcome (fetch_reddit_saved_posts (healthy_env 1000) reddit_client
             new_client)
  = Ok (VList sample_post_records).
Proof.
  split.
  - destruct (fetchers_return_every_record (healthy_env 1000) "Resource"
                [("credentials",
                  VObj "Credentials" [("token", VStr "ya29.a0")])]
                new_client sample_video_records) as [Hvideos _].
    eapply Hvideos; [reflexivity | reflexivity |].
    repeat constructor.
  - destruct (fetchers_return_every_record (healthy_env 1000) "Reddit"
                [("user", VObj "User" [])] new_client sample_post_records)
      as [_ Hposts].
    eapply Hposts; [reflexivity | reflexivity |].
    repeat constructor.
Defined.

Lemma fetch_reddit_all_or_nothing_witness :
  outcome (fetch_reddit_saved_posts (broken_listing_env 1000) reddit_client
             new_client)
  = Ok (VList []).
Proof.
  eapply (fetch_reddit_all_or_nothing (broken_listing_env 1000) "Reddit"
            [("user", VObj "User" [])] new_client _ broken_submission).
  - reflexivity.
  - cbn. apply list_elem_of_further, list_elem_of_here.
  - reflexivity.
  - reflexivity.
Defined.

